(** * project-analyzer: a shallow embedding of [project_analyzer.py]

    The analyzer walks a directory tree, bundles the source files of each
    directory into a prompt, posts it to a chat-completion endpoint and
    writes the answer back as a report once the answer passes a keyword
    check.  This file embeds the functions of [project_analyzer.py] and
    proves (or refutes) the properties its specification states.

    Conventions of the embedding.
    - Python [str] values are lists of Unicode code points ([pystr]); [len]
      and slicing count code points, as in Python.
    - Python is dynamically typed and the program lets JSON values flow
      into variables that usually hold text, so values are [pyval] and
      operations that Python rejects at run time raise.
    - A coroutine is a function from the trace of effects so far to an
      outcome (normal return or raised exception) and the extended trace.
      [print] calls only write to the console and are left out.
    - Everything the program does not define itself and that is not pure
      text processing (the HTTP endpoint, the file system, the clock,
      [json.loads], [repr], [os.path.relpath]) is a field of [Env]. *)

From Stdlib Require Import ZArith NArith List String Ascii Bool Lia.
From Stdlib Require Import DecimalString.
From Stdlib Require Import Floats.PrimFloat.
Import ListNotations.

Local Open Scope Z_scope.

(* ================================================================== *)
(** * Text *)
(* ================================================================== *)

Module PyStr.

(** A Python string: its code points, in order. *)
Definition pystr : Type := list N.

Fixpoint bytes_of_string (s : string) : list N :=
  match s with
  | EmptyString => []
  | String a s' => N_of_ascii a :: bytes_of_string s'
  end.

(** UTF-8 decoding, used to write the string literals of the source as
    they appear there. *)
Fixpoint utf8_decode (bs : list N) : pystr :=
  match bs with
  | [] => []
  | b0 :: r0 =>
    if (b0 <? 128)%N then b0 :: utf8_decode r0
    else if (b0 <? 224)%N then
      match r0 with
      | b1 :: r1 => ((b0 mod 32) * 64 + b1 mod 64)%N :: utf8_decode r1
      | _ => []
      end
    else if (b0 <? 240)%N then
      match r0 with
      | b1 :: b2 :: r2 =>
        ((b0 mod 16) * 4096 + (b1 mod 64) * 64 + b2 mod 64)%N :: utf8_decode r2
      | _ => []
      end
    else
      match r0 with
      | b1 :: b2 :: b3 :: r3 =>
        ((b0 mod 8) * 262144 + (b1 mod 64) * 4096 + (b2 mod 64) * 64 + b3 mod 64)%N
          :: utf8_decode r3
      | _ => []
      end
  end.

Definition u (s : string) : pystr := utf8_decode (bytes_of_string s).

(** ["\n"] *)
Definition nl : pystr := [10%N].

(** [len(s)] *)
Definition len (s : pystr) : Z := Z.of_nat (List.length s).

(** [str(n)] for an [int]. *)
Definition str_of_int (n : Z) : pystr :=
  bytes_of_string (NilZero.string_of_int (Z.to_int n)).

(** Slice bounds, as [PySlice_AdjustIndices] clamps them: a negative
    index counts from the end, and the result stays within [0, len]. *)
Definition adjust_index (length i : Z) : Z :=
  if i <? 0 then Z.max (length + i) 0 else Z.min i length.

(** [s[:i]] *)
Definition slice_to {A} (s : list A) (i : Z) : list A :=
  firstn (Z.to_nat (adjust_index (Z.of_nat (List.length s)) i)) s.

(** [s[i:]] *)
Definition slice_from {A} (s : list A) (i : Z) : list A :=
  skipn (Z.to_nat (adjust_index (Z.of_nat (List.length s)) i)) s.

Definition code_eqb (a b : N) : bool := (a =? b)%N.

Fixpoint str_eqb (a b : pystr) : bool :=
  match a, b with
  | [], [] => true
  | x :: a', y :: b' => code_eqb x y && str_eqb a' b'
  | _, _ => false
  end.

(** [s.startswith(p)] *)
Fixpoint startswith (p s : pystr) : bool :=
  match p, s with
  | [], _ => true
  | x :: p', y :: s' => code_eqb x y && startswith p' s'
  | _ :: _, [] => false
  end.

(** [sub in s] *)
Fixpoint contains (sub s : pystr) : bool :=
  startswith sub s ||
  match s with
  | [] => false
  | _ :: s' => contains sub s'
  end.

(** [str.isspace] on one code point (the code points [str.strip()]
    removes). *)
Definition isspace (c : N) : bool :=
  ((9 <=? c) && (c <=? 13) || (28 <=? c) && (c <=? 32) ||
   (c =? 133) || (c =? 160) || (c =? 5760) ||
   (8192 <=? c) && (c <=? 8202) ||
   (c =? 8232) || (c =? 8233) || (c =? 8239) || (c =? 8287) ||
   (c =? 12288))%N.

(** [s.lstrip()] *)
Fixpoint lstrip (s : pystr) : pystr :=
  match s with
  | c :: s' => if isspace c then lstrip s' else s
  | [] => []
  end.

(** [s.rstrip()] *)
Definition rstrip (s : pystr) : pystr := rev (lstrip (rev s)).

(** [s.strip()] *)
Definition strip (s : pystr) : pystr := rstrip (lstrip s).

(** [s.lower()] on the letters A-Z; other code points are kept.  (The
    only code point outside ASCII whose lower case is an ASCII letter is
    the Kelvin sign, which maps to [k].) *)
Definition lower_code (c : N) : N :=
  if ((65 <=? c) && (c <=? 90))%N then (c + 32)%N else c.

Definition lower (s : pystr) : pystr := map lower_code s.

(** [s.rfind(c)] for a single code point: the last index, or [-1]. *)
Fixpoint rfind_from (c : N) (s : pystr) (pos : Z) (found : Z) : Z :=
  match s with
  | [] => found
  | x :: s' => rfind_from c s' (pos + 1) (if code_eqb x c then pos else found)
  end.

Definition rfind (c : N) (s : pystr) : Z := rfind_from c s 0 (-1).

(** [sep.join(parts)] *)
Fixpoint join (sep : pystr) (parts : list pystr) : pystr :=
  match parts with
  | [] => []
  | [p] => p
  | p :: rest => p ++ sep ++ join sep rest
  end.

End PyStr.
Import PyStr.

(* ================================================================== *)
(** * Values and exceptions *)
(* ================================================================== *)

(** The Python values that reach the program: text, and whatever
    [json.loads] can return.  A [VDict] lists the items of the dictionary
    in insertion order, each key once. *)
#[local] Unset Elimination Schemes.
Inductive pyval : Type :=
| VNone
| VBool (b : bool)
| VInt (n : Z)
| VFloat (f : float)
| VStr (s : pystr)
| VList (items : list pyval)
| VDict (items : list (pystr * pyval)).
#[local] Set Elimination Schemes.

(** Exception classes, all of them subclasses of [Exception].
    [ClientError] stands for [aiohttp.ClientError] and its subclasses,
    [OtherException] for any class not named here. *)
Inductive exc_class : Type :=
| ClientError
| JSONDecodeError
| KeyError
| IndexError
| TypeError
| AttributeError
| OSError
| UnicodeDecodeError
| UnicodeEncodeError
| RecursionError
| OtherException.

(** An exception instance: its class and [str(e)]. *)
Record exn : Type := mkExn { exn_class : exc_class; exn_str : pystr }.

Inductive outcome (A : Type) : Type :=
| Ok (a : A)
| Raise (e : exn).
Arguments Ok {A} a.
Arguments Raise {A} e.

Definition rbind {A B} (r : outcome A) (k : A -> outcome B) : outcome B :=
  match r with
  | Ok a => k a
  | Raise e => Raise e
  end.

Declare Scope outcome_scope.
Delimit Scope outcome_scope with outcome.
Notation "x <- r ;; k" := (rbind r (fun x => k))
  (at level 61, r at next level, right associativity) : outcome_scope.

Definition is_client_error (e : exn) : bool :=
  match exn_class e with
  | ClientError => true
  | _ => false
  end.

(** [type(v).__name__] *)
Definition type_name (v : pyval) : pystr :=
  match v with
  | VNone => u "NoneType"
  | VBool _ => u "bool"
  | VInt _ => u "int"
  | VFloat _ => u "float"
  | VStr _ => u "str"
  | VList _ => u "list"
  | VDict _ => u "dict"
  end.

(** [bool(v)] *)
Definition truthy (v : pyval) : bool :=
  match v with
  | VNone => false
  | VBool b => b
  | VInt n => negb (n =? 0)
  | VFloat f => negb (PrimFloat.eqb f PrimFloat.zero)
  | VStr s => negb (len s =? 0)
  | VList l => negb (Z.of_nat (List.length l) =? 0)
  | VDict d => negb (Z.of_nat (List.length d) =? 0)
  end.

(** [len(v)] *)
Definition py_len (v : pyval) : outcome Z :=
  match v with
  | VStr s => Ok (len s)
  | VList l => Ok (Z.of_nat (List.length l))
  | VDict d => Ok (Z.of_nat (List.length d))
  | _ => Raise (mkExn TypeError
                  (u "object of type '" ++ type_name v ++ u "' has no len()"))
  end.

Fixpoint dict_get (items : list (pystr * pyval)) (key : pystr) : option pyval :=
  match items with
  | [] => None
  | (k, v) :: rest => if str_eqb k key then Some v else dict_get rest key
  end.

Definition not_subscriptable (v : pyval) : exn :=
  mkExn TypeError (u "'" ++ type_name v ++ u "' object is not subscriptable").

(** [v[key]] for a string key. *)
Definition getitem_key (v : pyval) (key : pystr) : outcome pyval :=
  match v with
  | VDict items =>
    match dict_get items key with
    | Some x => Ok x
    | None => Raise (mkExn KeyError (u "'" ++ key ++ u "'"))
    end
  | VList _ =>
    Raise (mkExn TypeError (u "list indices must be integers or slices, not str"))
  | VStr _ =>
    Raise (mkExn TypeError (u "string indices must be integers, not 'str'"))
  | _ => Raise (not_subscriptable v)
  end.

(** [v[0]].  The keys of a dictionary decoded from JSON are strings, so
    the integer key [0] is never found. *)
Definition getitem_0 (v : pyval) : outcome pyval :=
  match v with
  | VList (x :: _) => Ok x
  | VList [] => Raise (mkExn IndexError (u "list index out of range"))
  | VStr (c :: _) => Ok (VStr [c])
  | VStr [] => Raise (mkExn IndexError (u "string index out of range"))
  | VDict _ => Raise (mkExn KeyError (u "0"))
  | _ => Raise (not_subscriptable v)
  end.

(** The [AttributeError] of [v.name] when [v] has no such attribute. *)
Definition no_attribute (v : pyval) (name : pystr) : exn :=
  mkExn AttributeError
        (u "'" ++ type_name v ++ u "' object has no attribute '" ++ name ++ u "'").

(** ** Encoding text as UTF-8

    A Python [str] may hold any code point up to U+10FFFF, the
    surrogates U+D800..U+DFFF included ([json.loads] returns one for an
    unpaired [\ud83d] escape).  The strict UTF-8 encoder, which a file
    opened with [encoding='utf-8'] uses, rejects exactly the surrogates:
    it raises [UnicodeEncodeError] for the first run of them. *)

Definition is_surrogate (c : N) : bool := ((0xD800 <=? c) && (c <=? 0xDFFF))%N.

(** [s.encode('utf-8')] succeeds. *)
Definition utf8_encodable (s : pystr) : bool := forallb (fun c => negb (is_surrogate c)) s.

Definition hex_digit (d : N) : N := if (d <? 10)%N then (48 + d)%N else (87 + d)%N.

(** ['%04x' % c] for a code point below 0x10000. *)
Definition hex4 (c : N) : pystr :=
  [ hex_digit (c / 4096 mod 16); hex_digit (c / 256 mod 16);
    hex_digit (c / 16 mod 16); hex_digit (c mod 16) ]%N.

(** The number of surrogates [s] starts with. *)
Fixpoint surrogate_run (s : pystr) : nat :=
  match s with
  | c :: s' => if is_surrogate c then S (surrogate_run s') else O
  | [] => O
  end.

(** The first run of surrogates in [s], whose first code point has index
    [i]: the index of its first code point, that code point, and the
    index of its last code point. *)
Fixpoint first_surrogates (s : pystr) (i : Z) : option (Z * N * Z) :=
  match s with
  | [] => None
  | c :: s' =>
    if is_surrogate c then Some (i, c, i + Z.of_nat (surrogate_run s'))
    else first_surrogates s' (i + 1)
  end.

(** [str(e)] of the [UnicodeEncodeError] for the surrogates at the
    indices [start] to [last], the first of which is [c]. *)
Definition encode_error_text (c : N) (start last : Z) : pystr :=
  if start =? last then
    u "'utf-8' codec can't encode character '\u" ++ hex4 c ++ u "' in position "
      ++ str_of_int start ++ u ": surrogates not allowed"
  else
    u "'utf-8' codec can't encode characters in position "
      ++ str_of_int start ++ u "-" ++ str_of_int last ++ u ": surrogates not allowed".

(** The exception [s.encode('utf-8')] raises, if it raises. *)
Definition utf8_encode_error (s : pystr) : option exn :=
  match first_surrogates s 0 with
  | None => None
  | Some (start, c, last) =>
    Some (mkExn UnicodeEncodeError (encode_error_text c start last))
  end.

(* ================================================================== *)
(** * Constants *)
(* ================================================================== *)

Definition MAX_CONCURRENT_REQUESTS : Z := 2.
Definition MAX_RETRIES : Z := 5.
Definition RETRY_DELAY : Z := 5.
Definition MAX_CONTENT_LENGTH : Z := 8000.

Definition SKIP_DIRS : list pystr :=
  [ u "node_modules"; u "venv"; u ".git"; u "__pycache__"; u "dist";
    u "build"; u ".idea"; u ".vscode"; u "vendor"; u "packages"; u "system" ].

Definition ANALYZE_EXTENSIONS : list pystr :=
  [ u ".py"; u ".js"; u ".jsx"; u ".ts"; u ".tsx"; u ".vue"; u ".java";
    u ".cpp"; u ".c"; u ".h"; u ".hpp"; u ".cs"; u ".go"; u ".rb"; u ".php";
    u ".html"; u ".css"; u ".scss"; u ".less"; u ".sql"; u ".md"; u ".json";
    u ".yaml"; u ".yml"; u ".xml"; u ".sh"; u ".bash" ].

(** Membership in a set of strings. *)
Definition str_in (s : pystr) (set : list pystr) : bool :=
  existsb (str_eqb s) set.

(** The marker put where [truncate_content] cuts. *)
Definition ELISION : pystr := nl ++ u "...(内容已截断)..." ++ nl.

Definition required_sections : list pystr :=
  [ u "功能概述"; u "架构设计"; u "实现细节"; u "依赖分析"; u "核心流程" ].

(* ================================================================== *)
(** * Pure functions of the analyzer *)
(* ================================================================== *)

(** [truncate_content(content, max_length)].  The last line does
    [content[:half_length] + marker + content[-half_length:]]: on text
    that is the truncated text; a list can be sliced but not added to the
    marker; a dictionary cannot be sliced.  Values without [len] never
    get past the first line. *)
Definition truncate_content (content : pyval) (max_length : Z) : outcome pyval :=
  (n <- py_len content ;;
   if n <=? max_length then Ok content
   else
     let half_length := max_length / 2 in
     match content with
     | VStr s =>
       Ok (VStr (slice_to s half_length ++ ELISION ++ slice_from s (- half_length)))
     | VList _ =>
       Raise (mkExn TypeError
                (u "can only concatenate list (not " ++ [34%N] ++ u "str" ++ [34%N]
                   ++ u ") to list"))
     | VDict _ => Raise (mkExn TypeError (u "unhashable type: 'slice'"))
     | _ => Raise (not_subscriptable content)
     end)%outcome.

(** [verify_markdown(content)].  [content.strip()] exists on text only. *)
Definition verify_markdown (content : pyval) : outcome bool :=
  if negb (truthy content) then Ok false
  else
    match content with
    | VStr s =>
      if len (strip s) <? 100 then Ok false
      else Ok (forallb (fun section => contains section s) required_sections)
    | _ => Raise (no_attribute content (u "strip"))
    end.

(** [os.path.join(a, b)] *)
Definition path_join (a b : pystr) : pystr :=
  if startswith (u "/") b then b
  else if (len a =? 0) || startswith (u "/") (rev a) then a ++ b
  else a ++ u "/" ++ b.

(** [os.path.basename(p)] *)
Definition basename (p : pystr) : pystr :=
  slice_from p (rfind 47%N p + 1).

(** [os.path.splitext(p)]: the extension starts at the last dot of the
    last path component, unless that component has only dots before it. *)
Definition splitext (p : pystr) : pystr * pystr :=
  let sepIndex := rfind 47%N p in
  let dotIndex := rfind 46%N p in
  if (dotIndex >? sepIndex) &&
     existsb (fun c => negb (code_eqb c 46%N))
             (slice_to (slice_from p (sepIndex + 1)) (dotIndex - (sepIndex + 1)))
  then (slice_to p dotIndex, slice_from p dotIndex)
  else (p, []).

(** [should_analyze_file(file_path)] *)
Definition should_analyze_file (file_path : pystr) : bool :=
  let ext := lower (snd (splitext file_path)) in
  str_in ext ANALYZE_EXTENSIONS.

(** [should_skip_directory(dir_path)] *)
Definition should_skip_directory (dir_path : pystr) : bool :=
  let dir_name := basename dir_path in
  str_in dir_name SKIP_DIRS.

(* ================================================================== *)
(** * The environment and the effects of a run *)
(* ================================================================== *)

(** What is sent with [session.post(url, headers=headers, json=data)]. *)
Record request : Type := mkRequest {
  req_url : pystr;
  req_headers : list (pystr * pystr);
  req_json : pyval
}.

(** The effects of a run that leave the process, in the order they
    happen. *)
Inductive event : Type :=
| EvPost (r : request)                     (* a request was sent *)
| EvSleep (seconds : Z)                    (* [asyncio.sleep(seconds)] *)
| EvWrite (path : pystr) (text : pystr).   (* the file at [path] now holds [text] *)

Definition trace : Type := list event.

(** What comes back from the [async with session.post(...)] block up to
    [await response.text()]: a status and a body, or an exception. *)
Inductive http_reply : Type :=
| Response (status : Z) (text : pystr)
| HttpRaise (e : exn).

(** The world around the program.  The endpoint and the clock may answer
    according to everything that happened before. *)
Record Env : Type := mkEnv {
  OPENROUTER_API_KEY : pystr;
  (** [json.loads(text)]: the decoded value, or the message of the
      [JSONDecodeError] *)
  json_loads : pystr -> pyval + pystr;
  (** [repr(v)], used where a value that is not text is formatted *)
  py_repr : pyval -> pystr;
  (** the endpoint's answer to a request, given the history *)
  http_post : trace -> request -> http_reply;
  (** [os.listdir(path)] *)
  os_listdir : pystr -> outcome (list pystr);
  (** [os.path.isfile(path)] *)
  os_isfile : pystr -> bool;
  (** [os.path.relpath(path, start)] *)
  os_relpath : pystr -> pystr -> pystr;
  (** [open(path, 'r', encoding='utf-8').read()] *)
  read_text : pystr -> outcome pystr;
  (** [open(path, 'w', encoding='utf-8')]: whether the file can be opened *)
  open_for_write : pystr -> outcome unit;
  (** [datetime.now().strftime("%Y%m%d_%H%M%S")], given the history *)
  now_strftime : trace -> pystr
}.

(** A coroutine: from the history to an outcome and the new history. *)
Definition M (A : Type) : Type := trace -> outcome A * trace.

Definition ret {A} (a : A) : M A := fun tr => (Ok a, tr).

Definition raise {A} (e : exn) : M A := fun tr => (Raise e, tr).

Definition bind {A B} (m : M A) (k : A -> M B) : M B :=
  fun tr =>
    match m tr with
    | (Ok a, tr') => k a tr'
    | (Raise e, tr') => (Raise e, tr')
    end.

Definition lift {A} (r : outcome A) : M A := fun tr => (r, tr).

Definition emit (ev : event) : M unit := fun tr => (Ok tt, tr ++ [ev]).

(** A statement [m] inside a [try] block whose [except] clauses are
    [handler]: when [m] raises, control moves to the handler, which runs
    outside the [try]; otherwise the block goes on with [k]. *)
Definition guarded {A B} (m : M A) (handler : exn -> M B) (k : A -> M B) : M B :=
  fun tr =>
    match m tr with
    | (Ok a, tr') => k a tr'
    | (Raise e, tr') => handler e tr'
    end.

Declare Scope coroutine_scope.
Delimit Scope coroutine_scope with coroutine.
Notation "x <- m ;; k" := (bind m (fun x => k))
  (at level 61, m at next level, right associativity) : coroutine_scope.
Notation "m ;; k" := (bind m (fun _ => k))
  (at level 61, right associativity) : coroutine_scope.

(** [await asyncio.sleep(seconds)] *)
Definition sleep (seconds : Z) : M unit := emit (EvSleep seconds).

(** The text before [{truncated_content}] in the prompt. *)
Definition PROMPT_HEAD : pystr := u "请分析以下代码的结构和实现:
1. 功能概述
- 此代码的主要目标和用途是什么?
- 解决了什么具体业务/技术问题?
- 主要的输入输出是什么?

2. 架构设计
- 整体架构和模块划分
- 核心类/接口及其职责
- 关键的设计模式应用

3. 实现细节
- 主要函数的功能说明和实现逻辑
- 关键算法和数据结构
- 异常处理机制
- 性能相关的实现

4. 依赖分析
- 外部依赖项及其版本
- 模块间的依赖关系
- 关键的第三方库使用

5. 核心流程
- 主要业务流程的实现步骤
- 关键的控制流程
- 数据流转过程


分析内容:
".

Definition API_URL : pystr := u "https://openrouter.ai/api/v1/chat/completions".

Definition MODEL : pystr := u "anthropic/claude-3.5-sonnet".

(** The texts the program builds with f-strings. *)

(** [f"达到最大重试次数 ({MAX_RETRIES})，最后错误: {response_text}"] *)
Definition max_retries_text (response_text : pystr) : pystr :=
  u "达到最大重试次数 (" ++ str_of_int MAX_RETRIES ++ u ")，最后错误: " ++ response_text.

(** [f"API错误 (HTTP {response.status}): {response_text}"] *)
Definition api_error_text (status : Z) (response_text : pystr) : pystr :=
  u "API错误 (HTTP " ++ str_of_int status ++ u "): " ++ response_text.

(** [f"网络错误 (重试{retry_count}次后): {str(e)}"] *)
Definition network_error_text (retry_count : Z) (e : exn) : pystr :=
  u "网络错误 (重试" ++ str_of_int retry_count ++ u "次后): " ++ exn_str e.

(** [f"错误 (重试{retry_count}次后): {str(e)}"] *)
Definition unexpected_error_text (retry_count : Z) (e : exn) : pystr :=
  u "错误 (重试" ++ str_of_int retry_count ++ u "次后): " ++ exn_str e.

(** [f"Error reading file: {str(e)}"] *)
Definition read_error_text (e : exn) : pystr :=
  u "Error reading file: " ++ exn_str e.

(** [f"\n### File: {rel_path}\n```\n{content}\n```"] *)
Definition file_part (rel_path content : pystr) : pystr :=
  nl ++ u "### File: " ++ rel_path ++ nl ++ u "```" ++ nl ++ content ++ nl ++ u "```".

(** [os.path.join(directory, f"directory_analysis_{timestamp}.md")] *)
Definition report_path (directory timestamp : pystr) : pystr :=
  path_join directory (u "directory_analysis_" ++ timestamp ++ u ".md").

Section Analyzer.

Variable E : Env.

(** [str(v)], as an f-string formats a value. *)
Definition py_str (v : pyval) : pystr :=
  match v with
  | VStr s => s
  | _ => py_repr E v
  end.

Definition headers : list (pystr * pystr) :=
  [ (u "Authorization", u "Bearer " ++ OPENROUTER_API_KEY E);
    (u "Content-Type", u "application/json");
    (u "HTTP-Referer", u "http://localhost:8000") ].

Definition request_data (prompt : pystr) : pyval :=
  VDict [ (u "model", VStr MODEL);
          (u "messages", VList [ VDict [ (u "role", VStr (u "user"));
                                         (u "content", VStr prompt) ] ]) ].

(** [session.post(...)] followed by [await response.text()]. *)
Definition post (r : request) : M (Z * pystr) :=
  fun tr =>
    match http_post E tr r with
    | Response status text => (Ok (status, text), tr ++ [EvPost r])
    | HttpRaise e => (Raise e, tr ++ [EvPost r])
    end.

(** [json.loads(response_text)] *)
Definition loads (response_text : pystr) : outcome pyval :=
  match json_loads E response_text with
  | inl value => Ok value
  | inr message => Raise (mkExn JSONDecodeError message)
  end.

(** The request built on lines 66-111 from the truncated content. *)
Definition request_of (truncated_content : pyval) : request :=
  let prompt := PROMPT_HEAD ++ py_str truncated_content ++ nl in
  let data := request_data prompt in
  mkRequest API_URL headers data.

(** [result['choices'][0]['message']['content']] *)
Definition message_content (result : pyval) : outcome pyval :=
  (choices <- getitem_key result (u "choices") ;;
   first <- getitem_0 choices ;;
   message <- getitem_key first (u "message") ;;
   getitem_key message (u "content"))%outcome.

(** [get_file_content(file_path)] *)
Definition get_file_content (file_path : pystr) : outcome pystr :=
  match read_text E file_path with
  | Ok text => Ok text
  | Raise e => Ok (read_error_text e)
  end.

(** The two [except] clauses of [analyze_with_claude].  [content] is the
    value the variable [content] holds when the exception arrives, and
    [retry] is the recursive call with [retry_count + 1]. *)
Definition on_exception (retry : pyval -> M pyval) (retry_count : Z)
           (content : pyval) (e : exn) : M pyval :=
  (if is_client_error e then
     if retry_count <? MAX_RETRIES then
       let wait_time := RETRY_DELAY * (retry_count + 1) in
       sleep wait_time ;;
       retry content
     else
       ret (VStr (network_error_text retry_count e))
   else
     if retry_count <? MAX_RETRIES then
       let wait_time := RETRY_DELAY * (retry_count + 1) in
       sleep wait_time ;;
       retry content
     else
       ret (VStr (unexpected_error_text retry_count e)))%coroutine.

(** The body of [analyze_with_claude], with the recursive call as
    [retry].  Line 74 runs before the [try]; every later statement is
    inside it.  The two inner [except] clauses only print and re-raise.
    The assignment of line 127 rebinds [content], so a failure on line 128
    reaches the handler with the decoded value in [content]. *)
Definition analyze_with_claude_body (retry : pyval -> M pyval)
           (content : pyval) (directory_name : pystr) (retry_count : Z) : M pyval :=
  (truncated_content <- lift (truncate_content content MAX_CONTENT_LENGTH) ;;
   guarded (post (request_of truncated_content))
           (on_exception retry retry_count content)
     (fun response =>
      let '(status, response_text) := response in
      if status =? 200 then
        guarded (lift (loads response_text))
                (on_exception retry retry_count content)
          (fun result =>
        guarded (lift (message_content result))
                (on_exception retry retry_count content)
          (fun content =>
        guarded (lift (py_len content))
                (on_exception retry retry_count content)
          (fun _ =>
        ret content)))
      else if status =? 429 then
        if retry_count <? MAX_RETRIES then
          let wait_time := RETRY_DELAY * (retry_count + 1) in
          guarded (sleep wait_time ;; retry content)
                  (on_exception retry retry_count content)
                  ret
        else
          ret (VStr (max_retries_text response_text))
      else
        ret (VStr (api_error_text status response_text))))%coroutine.

(** The recursion of [analyze_with_claude], unrolled [depth] times. *)
Fixpoint analyze_with_claude_at (depth : nat) (content : pyval)
         (directory_name : pystr) (retry_count : Z) : M pyval :=
  match depth with
  | O => raise (mkExn RecursionError (u "maximum recursion depth exceeded"))
  | S depth' =>
    analyze_with_claude_body
      (fun content' =>
         analyze_with_claude_at depth' content' directory_name (retry_count + 1))
      content directory_name retry_count
  end.

(** [analyze_with_claude(content, directory_name, retry_count)].  A call
    recurses only while [retry_count < MAX_RETRIES], so this depth is
    never used up ([analyze_with_claude_unfold]). *)
Definition analyze_with_claude (content : pyval) (directory_name : pystr)
           (retry_count : Z) : M pyval :=
  analyze_with_claude_at (S (Z.to_nat (MAX_RETRIES - retry_count)))
                         content directory_name retry_count.

End Analyzer.

Section DirectoryAnalyzer.

Variable E : Env.

(** Lines 197-202: the entries of [directory] that are files with an
    analyzable extension, as full paths, in listing order. *)
Definition eligible_files (directory : pystr) (items : list pystr) : list pystr :=
  filter (fun full_path => os_isfile E full_path && should_analyze_file full_path)
         (map (path_join directory) items).

(** Lines 211-213: the part of the bundle for one file. *)
Definition content_part (directory file_path : pystr) : outcome pystr :=
  (let rel_path := os_relpath E file_path directory in
   content <- get_file_content E file_path ;;
   Ok (file_part rel_path content))%outcome.

(** Lines 210-213: the loop over [files]. *)
Fixpoint content_parts (directory : pystr) (files : list pystr)
  : outcome (list pystr) :=
  match files with
  | [] => Ok []
  | file_path :: rest =>
    (part <- content_part directory file_path ;;
     parts <- content_parts directory rest ;;
     Ok (part :: parts))%outcome
  end.

(** Lines 226-230: open the report file and write [analysis] to it.
    Opening creates the file, or empties it.  [f.write] accepts text
    only, and encodes all of it before any byte reaches the file: text
    with a surrogate raises [UnicodeEncodeError] and leaves the file
    empty.  The device is taken to accept the bytes it is handed. *)
Definition save_report (directory : pystr) (analysis : pyval) : M unit :=
  fun tr =>
    let timestamp := now_strftime E tr in
    let output_file := report_path directory timestamp in
    match open_for_write E output_file with
    | Raise e => (Raise e, tr)
    | Ok _ =>
      match analysis with
      | VStr text =>
        match utf8_encode_error text with
        | None => (Ok tt, tr ++ [EvWrite output_file text])
        | Some e => (Raise e, tr ++ [EvWrite output_file []])
        end
      | _ =>
        (Raise (mkExn TypeError
                  (u "write() argument must be str, not " ++ type_name analysis)),
         tr ++ [EvWrite output_file []])
      end
    end.

(** Lines 223-242: the [while retry_count < MAX_RETRIES] loop.  [rounds]
    bounds the number of iterations; the loop condition is tested first,
    and [MAX_RETRIES - retry_count] rounds are enough
    ([validation_loop_rounds]). *)
Fixpoint validation_loop (rounds : nat) (directory full_content dir_name : pystr)
         (retry_count : Z) (analysis : pyval) : M unit :=
  if negb (retry_count <? MAX_RETRIES) then ret tt
  else
    match rounds with
    | O => ret tt
    | S rounds' =>
      (valid <- lift (verify_markdown analysis) ;;
       if valid then save_report directory analysis
       else
         let retry_count := retry_count + 1 in
         if retry_count <? MAX_RETRIES then
           sleep (RETRY_DELAY * retry_count) ;;
           analysis <- analyze_with_claude E (VStr full_content) dir_name 0 ;;
           validation_loop rounds' directory full_content dir_name retry_count analysis
         else
           validation_loop rounds' directory full_content dir_name retry_count analysis
      )%coroutine
    end.

(** [analyze_single_directory(directory, base_dir)] *)
Definition analyze_single_directory (directory base_dir : pystr) : M unit :=
  if should_skip_directory directory then ret tt
  else
    (items <- lift (os_listdir E directory) ;;
     let files := eligible_files directory items in
     match files with
     | [] => ret tt
     | _ :: _ =>
       content_parts <- lift (content_parts directory files) ;;
       let full_content := join nl content_parts in
       let dir_name := os_relpath E directory base_dir in
       analysis <- analyze_with_claude E (VStr full_content) dir_name 0 ;;
       let retry_count := 0 in
       validation_loop (Z.to_nat MAX_RETRIES) directory full_content dir_name
                       retry_count analysis
     end)%coroutine.

End DirectoryAnalyzer.

(* ================================================================== *)
(** * The tree walk *)
(* ================================================================== *)

(** The directories [os.walk] can enter below a root, by name, in the
    order it lists them. *)
#[local] Unset Elimination Schemes.
Inductive dirtree : Type :=
| Dir (subdirs : list (pystr * dirtree)).
#[local] Set Elimination Schemes.

(** The [root] of every triple [os.walk(top)] yields, top-down. *)
Fixpoint os_walk_roots (top : pystr) (t : dirtree) : list pystr :=
  match t with
  | Dir subdirs =>
    top :: flat_map (fun entry => os_walk_roots (path_join top (fst entry)) (snd entry))
                    subdirs
  end.

(** Lines 246-253 of [process_all_directories]: the task list. *)
Definition dirs_to_process (base_dir : pystr) (t : dirtree) : list pystr :=
  filter (fun root => negb (contains (u "node_modules") root))
         (os_walk_roots base_dir t).

(* ================================================================== *)
(** * Notions used in the statements *)
(* ================================================================== *)

(** [sub] occurs in [s] as a run of consecutive code points. *)
Definition occurs_in (sub s : pystr) : Prop :=
  exists before after, s = before ++ sub ++ after.


(** The requests of a trace, in order. *)
Fixpoint posts (tr : trace) : list request :=
  match tr with
  | [] => []
  | EvPost r :: rest => r :: posts rest
  | _ :: rest => posts rest
  end.

(** The sleeps of a trace, in order. *)
Fixpoint sleeps (tr : trace) : list Z :=
  match tr with
  | [] => []
  | EvSleep seconds :: rest => seconds :: sleeps rest
  | _ :: rest => sleeps rest
  end.

(** The files written in a trace, in order. *)
Fixpoint writes (tr : trace) : list (pystr * pystr) :=
  match tr with
  | [] => []
  | EvWrite path text :: rest => (path, text) :: writes rest
  | _ :: rest => writes rest
  end.

(** What a run of back-offs adds to a trace after a first request:
    [n] times a sleep of [RETRY_DELAY * (retry_count + 1)] seconds and the
    request again, with [retry_count] going up by one each time. *)
Fixpoint backoff (req : request) (retry_count : Z) (n : nat) : trace :=
  match n with
  | O => []
  | S n' =>
    EvSleep (RETRY_DELAY * (retry_count + 1)) :: EvPost req
      :: backoff req (retry_count + 1) n'
  end.

(** [m] only extends the trace, and writes no file. *)
Definition quiet {A} (m : M A) : Prop :=
  forall tr, exists new, snd (m tr) = tr ++ new /\ writes new = [].


(** [m] returns text, and never raises. *)
Definition returns_text (m : M pyval) : Prop :=
  forall tr, exists s tr', m tr = (Ok (VStr s), tr').


(** [m] sends at most [k] requests. *)
Definition at_most_posts {A} (k : nat) (m : M A) : Prop :=
  forall tr, exists new,
    snd (m tr) = tr ++ new /\ (List.length (posts new) <= k)%nat.

(** The shape of a run of the client on the text [s], truncated to [t],
    from [retry_count = rc]: the request, then [n] back-offs, and text as
    the result. *)
Definition scheduled (E : Env) (s d t : pystr) (rc : Z) : Prop :=
  forall tr, exists n answer,
    (n <= Z.to_nat (MAX_RETRIES - rc))%nat /\
    analyze_with_claude E (VStr s) d rc tr
    = (Ok (VStr answer),
       tr ++ EvPost (request_of E (VStr t)) :: backoff (request_of E (VStr t)) rc n).

(** What the validation loop adds to a trace when every analysis is
    rejected: [n] times a sleep of [RETRY_DELAY * (retry_count + 1)]
    seconds and the effects [call] of one call of the client. *)
Fixpoint validation_rounds (call : trace) (retry_count : Z) (n : nat) : trace :=
  match n with
  | O => []
  | S n' =>
    EvSleep (RETRY_DELAY * (retry_count + 1))
      :: call ++ validation_rounds call (retry_count + 1) n'
  end.

(** [m] writes at most one file; when it does, the write is its last
    effect and the file is the report file of [directory] named after the
    time of the write.  Then either [m] returns normally and the file
    holds text that UTF-8 can encode, or the file is left empty and [m]
    raises a [UnicodeEncodeError]. *)
Definition writes_once_at_end (E : Env) (directory : pystr) (m : M unit) : Prop :=
  forall tr, exists new,
    snd (m tr) = tr ++ new /\
    (writes new = [] \/
     exists before text,
       new = before
             ++ [EvWrite (report_path directory (now_strftime E (tr ++ before))) text] /\
       writes before = [] /\
       (fst (m tr) = Ok tt /\ utf8_encodable text = true \/
        text = [] /\
        exists e, fst (m tr) = Raise e /\ exn_class e = UnicodeEncodeError)).

(** The text a file contributes to the bundle: what it holds, or the
    description of why it could not be read. *)
Definition file_text (E : Env) (file_path : pystr) : pystr :=
  match read_text E file_path with
  | Ok text => text
  | Raise e => read_error_text e
  end.

(* ================================================================== *)
(** * Sample worlds *)
(* ================================================================== *)

Module Sample.

(** Text written with an apostrophe in place of each double quote. *)
Definition dq (s : string) : pystr :=
  map (fun c => if code_eqb c 39%N then 34%N else c) (u s).

(** A report with the five section markers. *)
Definition report : pystr :=
  u "功能概述: prints a greeting. 架构设计: one module. 实现细节: two functions, hello_world and add_numbers. 依赖分析: none. 核心流程: main calls both.".

(** A well-formed success body carrying [report]. *)
Definition body_report : pystr :=
  dq "{'choices':[{'message':{'content':'" ++ report ++ dq "'}}]}".

(** A success body whose message content is [null]. *)
Definition body_null : pystr := dq "{'choices':[{'message':{'content':null}}]}".

(** A success body whose message content is an array. *)
Definition body_array : pystr := dq "{'choices':[{'message':{'content':['ok']}}]}".

(** A body without the key [choices]. *)
Definition body_error : pystr := dq "{'error':'overloaded'}".

(** A body that is not JSON. *)
Definition body_html : pystr := u "<html>Bad Gateway</html>".

(** An error body that happens to name the five sections. *)
Definition body_busy : pystr :=
  u "功能概述 架构设计 实现细节 依赖分析 核心流程: the service is overloaded at the moment, please repeat the request in a little while.".

Definition choices_with (content : pyval) : pyval :=
  VDict [ (u "choices", VList [ VDict [ (u "message",
            VDict [ (u "content", content) ]) ] ]) ].

(** [json.loads] on the bodies above; the sample runs decode no other
    text, and [body_html] stands for every undecodable one. *)
Definition decode (text : pystr) : pyval + pystr :=
  if str_eqb text body_report then inl (choices_with (VStr report))
  else if str_eqb text body_null then inl (choices_with VNone)
  else if str_eqb text body_array then inl (choices_with (VList [VStr (u "ok")]))
  else if str_eqb text body_error then inl (VDict [ (u "error", VStr (u "overloaded")) ])
  else inr (u "Expecting value: line 1 column 1 (char 0)").

(** A directory [proj] with a readable source file, an image, a source
    file that is not valid UTF-8, and a subdirectory [venv]. *)
Definition listdir (path : pystr) : outcome (list pystr) :=
  if str_eqb path (u "proj") then Ok [u "a.py"; u "logo.png"; u "b.py"; u "venv"]
  else if str_eqb path (u "proj/venv") then Ok [u "site.py"]
  else Raise (mkExn OSError (u "[Errno 2] No such file or directory: '" ++ path ++ u "'")).

Definition isfile (path : pystr) : bool :=
  str_in path [u "proj/a.py"; u "proj/logo.png"; u "proj/b.py"; u "proj/venv/site.py"].

Definition decode_failure : exn :=
  mkExn UnicodeDecodeError
        (u "'utf-8' codec can't decode byte 0xff in position 0: invalid start byte").

Definition read (path : pystr) : outcome pystr :=
  if str_eqb path (u "proj/a.py") then Ok (u "print(1)")
  else if str_eqb path (u "proj/venv/site.py") then Ok (u "import sys")
  else if str_eqb path (u "proj/b.py") then Raise decode_failure
  else Raise (mkExn OSError (u "[Errno 2] No such file or directory: '" ++ path ++ u "'")).

(** [os.path.relpath] where [path] is [start] or lies below it. *)
Definition relpath (path start : pystr) : pystr :=
  if str_eqb path start then u "."
  else if startswith (start ++ u "/") path then slice_from path (len start + 1)
  else path.

Definition tree : dirtree := Dir [ (u "venv", Dir []) ].

(** The sample world around an endpoint. *)
Definition world (endpoint : trace -> request -> http_reply) : Env :=
  {| OPENROUTER_API_KEY := u "sk-or-sample";
     json_loads := decode;
     py_repr := fun v => u "<" ++ type_name v ++ u ">";
     http_post := endpoint;
     os_listdir := listdir;
     os_isfile := isfile;
     os_relpath := relpath;
     read_text := read;
     open_for_write := fun _ => Ok tt;
     now_strftime := fun _ => u "20240101_120000" |}.

(** An endpoint that gives the same reply to every request. *)
Definition always (reply : http_reply) : trace -> request -> http_reply :=
  fun _ _ => reply.

(** An endpoint that answers the n-th request with the n-th reply of
    [replies], and with [last] once they are used up. *)
Definition in_turn (replies : list http_reply) (last : http_reply)
  : trace -> request -> http_reply :=
  fun tr _ => nth (List.length (posts tr)) replies last.

(** A world whose endpoint answers the first request with a body that
    is not JSON and every later one with a well-formed report. *)
Definition world_html_then_report : Env :=
  world (in_turn [Response 200 body_html] (Response 200 body_report)).

(** The same with a first body that lacks the key [choices]. *)
Definition world_error_then_report : Env :=
  world (in_turn [Response 200 body_error] (Response 200 body_report)).

(** A world whose endpoint always answers with a [null] content. *)
Definition world_null : Env := world (always (Response 200 body_null)).

(** A world whose endpoint always answers with an array as content. *)
Definition world_array : Env := world (always (Response 200 body_array)).

(** A world whose endpoint always answers 429 with [body_busy]. *)
Definition world_busy : Env := world (always (Response 429 body_busy)).

End Sample.

(** More sample worlds, built on the sample file system. *)
Module Worlds.

(** A transport failure of the HTTP client. *)
Definition connection_refused : exn :=
  mkExn ClientError (u "Cannot connect to host openrouter.ai:443 ssl:default").

(** The endpoint cannot be reached. *)
Definition offline : Env := Sample.world (Sample.always (HttpRaise connection_refused)).

(** The endpoint always answers 500 with an HTML page. *)
Definition broken : Env := Sample.world (Sample.always (Response 500 Sample.body_html)).

(** The endpoint always answers with the well-formed sample report. *)
Definition helpful : Env := Sample.world (Sample.always (Response 200 Sample.body_report)).

(** The endpoint always answers 429 with a short plain body. *)
Definition throttled : Env :=
  Sample.world (Sample.always (Response 429 (u "rate limited"))).

(** The sample file system with one more directory, [proj/assets],
    which holds an image, a file without extension and a subdirectory. *)
Definition with_assets (E : Env) : Env :=
  {| OPENROUTER_API_KEY := OPENROUTER_API_KEY E;
     json_loads := json_loads E;
     py_repr := py_repr E;
     http_post := http_post E;
     os_listdir := fun path =>
       if str_eqb path (u "proj/assets") then Ok [u "logo.png"; u "LICENSE"; u "icons.js"]
       else os_listdir E path;
     os_isfile := fun path =>
       str_in path [u "proj/assets/logo.png"; u "proj/assets/LICENSE"] || os_isfile E path;
     os_relpath := os_relpath E;
     read_text := read_text E;
     open_for_write := open_for_write E;
     now_strftime := now_strftime E |}.

(** The sample report followed by one half of an emoji: the unpaired
    surrogate U+D83D, which [json.loads] returns for the escape
    [\ud83d] when the second half is missing. *)
Definition report_half_emoji : pystr := Sample.report ++ [0xD83D%N].

(** A well-formed success body carrying it, the surrogate written as an
    escape. *)
Definition body_half_emoji : pystr :=
  Sample.dq "{'choices':[{'message':{'content':'" ++ Sample.report ++ u "\ud83d"
    ++ Sample.dq "'}}]}".

(** The endpoint always answers with that body. *)
Definition half_emoji : Env :=
  {| OPENROUTER_API_KEY := u "sk-or-sample";
     json_loads := fun text =>
       if str_eqb text body_half_emoji
       then inl (Sample.choices_with (VStr report_half_emoji))
       else Sample.decode text;
     py_repr := fun v => u "<" ++ type_name v ++ u ">";
     http_post := Sample.always (Response 200 body_half_emoji);
     os_listdir := Sample.listdir;
     os_isfile := Sample.isfile;
     os_relpath := Sample.relpath;
     read_text := Sample.read;
     open_for_write := fun _ => Ok tt;
     now_strftime := fun _ => u "20240101_120000" |}.

End Worlds.

(* ================================================================== *)
(** * Checks of the embedding on small inputs *)
(* ================================================================== *)

Example u_ascii : u "a.py" = [97; 46; 112; 121]%N.
Proof. reflexivity. Qed.

Example u_cjk : u "功能概述" = [0x529f; 0x80fd; 0x6982; 0x8ff0]%N.
Proof. reflexivity. Qed.

Example str_of_int_pos : str_of_int 429 = u "429".
Proof. reflexivity. Qed.

Example str_of_int_zero : str_of_int 0 = u "0".
Proof. reflexivity. Qed.

Example utf8_encodable_emoji : utf8_encodable [0xE9; 0x1F600; 0xD7FF; 0xE000]%N = true.
Proof. reflexivity. Qed.

Example utf8_encode_error_one :
  utf8_encode_error [97; 98; 0xDC80; 99]%N
  = Some (mkExn UnicodeEncodeError
                (u "'utf-8' codec can't encode character '\udc80' in position 2: surrogates not allowed")).
Proof. vm_compute. reflexivity. Qed.

Example utf8_encode_error_first_run :
  utf8_encode_error [0xD83D; 97; 0xD83D; 0xD83D]%N
  = Some (mkExn UnicodeEncodeError
                (u "'utf-8' codec can't encode character '\ud83d' in position 0: surrogates not allowed")).
Proof. vm_compute. reflexivity. Qed.

Example utf8_encode_error_run :
  utf8_encode_error [120; 0xDFFF; 0xD800; 121]%N
  = Some (mkExn UnicodeEncodeError
                (u "'utf-8' codec can't encode characters in position 1-2: surrogates not allowed")).
Proof. vm_compute. reflexivity. Qed.

Example str_of_int_neg : str_of_int (-12) = u "-12".
Proof. reflexivity. Qed.

Example slice_to_ex : slice_to (u "abcdef") 2 = u "ab".
Proof. reflexivity. Qed.

Example slice_from_neg_ex : slice_from (u "abcdef") (-2) = u "ef".
Proof. reflexivity. Qed.

Example slice_from_minus_zero_ex : slice_from (u "abcdef") (- 0) = u "abcdef".
Proof. reflexivity. Qed.

Example strip_ex : strip (u "  a b  ") = u "a b".
Proof. reflexivity. Qed.

Example ELISION_len : len ELISION = 15.
Proof. reflexivity. Qed.

Example truncate_short : truncate_content (VStr (u "abc")) 8000 = Ok (VStr (u "abc")).
Proof. reflexivity. Qed.

Example truncate_small_max :
  truncate_content (VStr (u "abcdefg")) 4 = Ok (VStr (u "ab" ++ ELISION ++ u "fg")).
Proof. reflexivity. Qed.

Example truncate_none :
  truncate_content VNone 8000 =
  Raise (mkExn TypeError (u "object of type 'NoneType' has no len()")).
Proof. reflexivity. Qed.

Example splitext_hidden : splitext (u "a/.bashrc") = (u "a/.bashrc", []).
Proof. reflexivity. Qed.

Example splitext_dots : splitext (u "a/..b.c") = (u "a/..b", u ".c").
Proof. reflexivity. Qed.

Example splitext_dir_dot : splitext (u "a.b/c") = (u "a.b/c", []).
Proof. reflexivity. Qed.

Example should_analyze_upper : should_analyze_file (u "proj/X.PY") = true.
Proof. reflexivity. Qed.

Example should_analyze_png : should_analyze_file (u "proj/logo.png") = false.
Proof. reflexivity. Qed.

Example should_skip_venv : should_skip_directory (u "proj/venv") = true.
Proof. reflexivity. Qed.

Example should_skip_src : should_skip_directory (u "proj/venv2") = false.
Proof. reflexivity. Qed.

Example path_join_ex : path_join (u "proj") (u "a.py") = u "proj/a.py".
Proof. reflexivity. Qed.

Example verify_empty : verify_markdown (VStr []) = Ok false.
Proof. reflexivity. Qed.

Example verify_none : verify_markdown VNone = Ok false.
Proof. reflexivity. Qed.

(* ================================================================== *)
(** * Text lemmas *)
(* ================================================================== *)

Section Slices.

Context {A : Type}.

Lemma slice_to_firstn (s : list A) (i : Z) :
  0 <= i <= Z.of_nat (List.length s) ->
  slice_to s i = firstn (Z.to_nat i) s.
Proof.
  intros H. unfold slice_to, adjust_index.
  destruct (Z.ltb_spec i 0); [lia |].
  rewrite Z.min_l by lia. reflexivity.
Qed.

Lemma slice_from_last (s : list A) (i : Z) :
  0 < i <= Z.of_nat (List.length s) ->
  slice_from s (- i) = skipn (List.length s - Z.to_nat i) s.
Proof.
  intros H. unfold slice_from, adjust_index.
  destruct (Z.ltb_spec (- i) 0); [| lia].
  rewrite Z.max_l by lia. f_equal. lia.
Qed.

Lemma firstn_prefix (a b : list A) (n : nat) :
  List.length a = n -> firstn n (a ++ b) = a.
Proof.
  intros <-. rewrite firstn_app, Nat.sub_diag, firstn_all. cbn.
  apply app_nil_r.
Qed.

Lemma skipn_suffix (a b : list A) (n : nat) :
  List.length a = n -> skipn n (a ++ b) = b.
Proof.
  intros <-. rewrite skipn_app, Nat.sub_diag, skipn_all. reflexivity.
Qed.

Lemma skipn_last (a b : list A) (n : nat) :
  List.length b = n -> skipn (List.length (a ++ b) - n) (a ++ b) = b.
Proof.
  intros <-. apply skipn_suffix. rewrite length_app. lia.
Qed.

End Slices.

Lemma len_app (a b : pystr) : len (a ++ b) = len a + len b.
Proof. unfold len. rewrite length_app. lia. Qed.

Lemma code_eqb_eq (a b : N) : code_eqb a b = true <-> a = b.
Proof. apply N.eqb_eq. Qed.

Lemma startswith_spec (p s : pystr) :
  startswith p s = true <-> exists rest, s = p ++ rest.
Proof.
  revert s. induction p as [| x p IH]; intros s; cbn.
  - split; [intros _; exists s; reflexivity | reflexivity].
  - destruct s as [| y s]; cbn.
    + split; [discriminate | intros [rest H]; discriminate].
    + rewrite andb_true_iff, code_eqb_eq, IH. split.
      * intros [-> [rest ->]]. exists rest. reflexivity.
      * intros [rest H]. injection H as -> ->. split; [reflexivity | eauto].
Qed.

Lemma contains_spec (sub s : pystr) :
  contains sub s = true <-> occurs_in sub s.
Proof.
  unfold occurs_in. induction s as [| c s IH].
  - cbn. rewrite orb_false_r, startswith_spec. split.
    + intros [rest H]. exists [], rest. exact H.
    + intros [before [after H]].
      destruct before; [exists after; exact H | discriminate].
  - cbn [contains]. rewrite orb_true_iff, startswith_spec, IH. split.
    + intros [[rest H] | [before [after H]]].
      * exists [], rest. exact H.
      * exists (c :: before), after. rewrite H. reflexivity.
    + intros [before [after H]]. destruct before as [| c' before].
      * left. exists after. exact H.
      * right. injection H as _ H. eauto.
Qed.

Lemma contains_false (sub s : pystr) :
  contains sub s = false <-> ~ occurs_in sub s.
Proof.
  rewrite <- contains_spec. destruct (contains sub s); split; congruence.
Qed.

(* ================================================================== *)
(** * The truncator *)
(* ================================================================== *)

Lemma truncate_content_short (s : pystr) (max_length : Z) :
  len s <= max_length ->
  truncate_content (VStr s) max_length = Ok (VStr s).
Proof.
  intros H. unfold truncate_content. cbn.
  destruct (Z.leb_spec (len s) max_length); [reflexivity | lia].
Qed.

Lemma truncate_content_long (s : pystr) (max_length : Z) :
  2 <= max_length < len s ->
  truncate_content (VStr s) max_length =
  Ok (VStr (firstn (Z.to_nat (max_length / 2)) s ++ ELISION
            ++ skipn (List.length s - Z.to_nat (max_length / 2)) s)).
Proof.
  intros H. unfold truncate_content. cbn.
  destruct (Z.leb_spec (len s) max_length); [lia |].
  assert (Hhalf : 0 < max_length / 2 <= max_length).
  { split; [apply Z.div_str_pos; lia | apply Z.div_le_upper_bound; lia]. }
  unfold len in *.
  rewrite slice_to_firstn, slice_from_last by lia. reflexivity.
Qed.

Lemma truncate_content_long_len (s : pystr) (max_length : Z) :
  2 <= max_length < len s ->
  len (firstn (Z.to_nat (max_length / 2)) s ++ ELISION
       ++ skipn (List.length s - Z.to_nat (max_length / 2)) s)
  = 2 * (max_length / 2) + len ELISION.
Proof.
  intros H.
  assert (Hhalf : 0 < max_length / 2 <= max_length).
  { split; [apply Z.div_str_pos; lia | apply Z.div_le_upper_bound; lia]. }
  rewrite !len_app. unfold len in *.
  rewrite length_firstn, length_skipn. lia.
Qed.

Lemma truncate_content_long_8000 (s : pystr) :
  8000 < len s ->
  truncate_content (VStr s) 8000 =
  Ok (VStr (firstn 4000 s ++ ELISION ++ skipn (List.length s - 4000) s)) /\
  List.length (firstn 4000 s) = 4000%nat /\
  List.length (skipn (List.length s - 4000) s) = 4000%nat /\
  len (firstn 4000 s ++ ELISION ++ skipn (List.length s - 4000) s)
  = 2 * (8000 / 2) + len ELISION.
Proof.
  intros H. split; [| split; [| split]].
  - rewrite truncate_content_long by lia. reflexivity.
  - unfold len in H. rewrite length_firstn. lia.
  - unfold len in H. rewrite length_skipn. lia.
  - exact (truncate_content_long_len s 8000 ltac:(lia)).
Qed.

(** C5.  With the maximum length 8000, text of at most 8000 code points
    comes back unchanged; longer text comes back as its first 4000 code
    points, the elision marker and its last 4000 code points, which makes
    [2 * (8000 // 2) + len(marker)] code points. *)
Theorem truncate_content_8000 (s : pystr) :
  MAX_CONTENT_LENGTH = 8000 /\
  (len s <= 8000 -> truncate_content (VStr s) 8000 = Ok (VStr s)) /\
  (8000 < len s ->
   exists out,
     truncate_content (VStr s) 8000 = Ok (VStr out) /\
     out = firstn 4000 s ++ ELISION ++ skipn (List.length s - 4000) s /\
     List.length (firstn 4000 s) = 4000%nat /\
     List.length (skipn (List.length s - 4000) s) = 4000%nat /\
     len out = 2 * (8000 / 2) + len ELISION).
Proof.
  split; [reflexivity |]. split.
  - apply truncate_content_short.
  - intros H. destruct (truncate_content_long_8000 s H) as [Hrun [Hh [Ht Hl]]].
    eexists. repeat split; eassumption.
Qed.

Lemma truncate_content_8000_witness :
  truncate_content (VStr (u "print(1)")) 8000 = Ok (VStr (u "print(1)")) /\
  exists out,
    truncate_content (VStr (repeat 120%N (Z.to_nat 8001))) 8000 = Ok (VStr out) /\
    len out = 8015.
Proof.
  destruct (truncate_content_8000 (u "print(1)")) as [_ [Hshort _]].
  destruct (truncate_content_8000 (repeat 120%N (Z.to_nat 8001))) as [_ [_ Hlong]].
  split.
  - apply Hshort. vm_compute. discriminate.
  - destruct Hlong as [out [Hrun [_ [_ [_ Hlen]]]]]; [vm_compute; reflexivity |].
    exists out. split; [exact Hrun | exact Hlen].
Defined.

(** C10.  With the maximum length 8000, truncating a second time changes
    nothing, although a truncated text has 8015 code points. *)
Theorem truncate_content_idempotent (s : pystr) :
  exists out,
    truncate_content (VStr s) 8000 = Ok (VStr out) /\
    truncate_content (VStr out) 8000 = Ok (VStr out) /\
    (8000 < len s -> len out = 8015 /\ len ELISION = 15).
Proof.
  destruct (Z.le_gt_cases (len s) 8000) as [Hs | Hs].
  - exists s. rewrite truncate_content_short by exact Hs.
    split; [reflexivity |]. split; [reflexivity | lia].
  - destruct (truncate_content_long_8000 s Hs) as [Hrun [Hhead [Htail Hlen]]].
    eexists. split; [exact Hrun |].
    split; [| intros _; split; [rewrite Hlen; reflexivity | reflexivity]].
    set (head := firstn 4000 s) in *.
    set (tail := skipn (List.length s - 4000) s) in *.
    assert (Hlonger : 8000 < len (head ++ ELISION ++ tail))
      by (rewrite Hlen; reflexivity).
    rewrite truncate_content_long by lia.
    change (Z.to_nat (8000 / 2)) with 4000%nat.
    rewrite (firstn_prefix head (ELISION ++ tail)) by exact Hhead.
    rewrite (app_assoc head ELISION tail).
    rewrite skipn_last by exact Htail.
    rewrite <- app_assoc. reflexivity.
Qed.

Lemma truncate_content_idempotent_witness :
  exists out,
    truncate_content (VStr (repeat 120%N (Z.to_nat 8001))) 8000 = Ok (VStr out) /\
    truncate_content (VStr out) 8000 = Ok (VStr out) /\
    len out = 8015.
Proof.
  destruct (truncate_content_idempotent (repeat 120%N (Z.to_nat 8001)))
    as [out [Hrun [Hagain Hlen]]].
  exists out. split; [exact Hrun |]. split; [exact Hagain |].
  apply Hlen. vm_compute. reflexivity.
Defined.

(* ================================================================== *)
(** * The validator *)
(* ================================================================== *)

Lemma truthy_text (s : pystr) : truthy (VStr s) = false <-> s = [].
Proof.
  destruct s; cbn; split; intros H; try reflexivity; discriminate.
Qed.

Lemma all_sections_spec (s : pystr) :
  forallb (fun section => contains section s) required_sections = true <->
  forall section, In section required_sections -> occurs_in section s.
Proof.
  rewrite forallb_forall. split; intros H section Hin.
  - apply contains_spec, H, Hin.
  - apply contains_spec, H, Hin.
Qed.

(** C6.  On text, [verify_markdown] answers true exactly when the
    stripped text has at least 100 code points and each of the five
    section markers occurs in the text; it answers false for empty text,
    for stripped text shorter than 100 and when a marker is missing. *)
Theorem verify_markdown_spec (s : pystr) :
  exists verdict,
    verify_markdown (VStr s) = Ok verdict /\
    (verdict = true <->
     100 <= len (strip s) /\
     forall section,
       In section [u "功能概述"; u "架构设计"; u "实现细节"; u "依赖分析"; u "核心流程"] ->
       occurs_in section s) /\
    (s = [] -> verdict = false) /\
    (len (strip s) < 100 -> verdict = false) /\
    (forall section,
       In section [u "功能概述"; u "架构设计"; u "实现细节"; u "依赖分析"; u "核心流程"] ->
       ~ occurs_in section s -> verdict = false).
Proof.
  change [u "功能概述"; u "架构设计"; u "实现细节"; u "依赖分析"; u "核心流程"]
    with required_sections.
  unfold verify_markdown.
  destruct (truthy (VStr s)) eqn:Htruthy; cbn [negb].
  - destruct (Z.ltb_spec (len (strip s)) 100) as [Hshort | Hlong].
    + exists false. split; [reflexivity |].
      split; [split; [discriminate | lia] |]. auto.
    + eexists. split; [reflexivity |]. split; [| split; [| split]].
      * rewrite all_sections_spec. split; [intros H; split; [lia | exact H] | tauto].
      * intros ->. discriminate.
      * lia.
      * intros section Hin Hmissing.
        destruct (forallb _ _) eqn:Hall; [| reflexivity].
        exfalso. apply Hmissing. rewrite all_sections_spec in Hall. auto.
  - apply truthy_text in Htruthy. subst s.
    exists false. split; [reflexivity |].
    split; [split; [discriminate | cbn; lia] |]. auto.
Qed.

Lemma verify_markdown_spec_witness :
  verify_markdown (VStr Sample.report) = Ok true /\
  verify_markdown (VStr (u "功能概述")) = Ok false /\
  verify_markdown (VStr (Sample.body_busy ++ u " 功能概述")) = Ok true.
Proof.
  destruct (verify_markdown_spec Sample.report) as [v1 [Hrun1 [Htrue1 _]]].
  destruct (verify_markdown_spec (u "功能概述")) as [v2 [Hrun2 [_ [_ [Hshort2 _]]]]].
  destruct (verify_markdown_spec (Sample.body_busy ++ u " 功能概述"))
    as [v3 [Hrun3 [Htrue3 _]]].
  rewrite Hrun1, Hrun2, Hrun3. repeat split; f_equal.
  - apply Htrue1. split; [vm_compute; discriminate |].
    intros section Hin. apply contains_spec.
    repeat (destruct Hin as [<- | Hin]; [vm_compute; reflexivity |]). destruct Hin.
  - apply Hshort2. vm_compute. reflexivity.
  - apply Htrue3. split; [vm_compute; discriminate |].
    intros section Hin. apply contains_spec.
    repeat (destruct Hin as [<- | Hin]; [vm_compute; reflexivity |]). destruct Hin.
Defined.

(* ================================================================== *)
(** * Traces *)
(* ================================================================== *)

Lemma posts_app (a b : trace) : posts (a ++ b) = posts a ++ posts b.
Proof.
  induction a as [| ev a IH]; [reflexivity |].
  destruct ev; cbn; rewrite IH; reflexivity.
Qed.

Lemma sleeps_app (a b : trace) : sleeps (a ++ b) = sleeps a ++ sleeps b.
Proof.
  induction a as [| ev a IH]; [reflexivity |].
  destruct ev; cbn; rewrite IH; reflexivity.
Qed.

Lemma writes_app (a b : trace) : writes (a ++ b) = writes a ++ writes b.
Proof.
  induction a as [| ev a IH]; [reflexivity |].
  destruct ev; cbn; rewrite IH; reflexivity.
Qed.

Lemma verify_markdown_true_text (analysis : pyval) :
  verify_markdown analysis = Ok true -> exists text, analysis = VStr text.
Proof.
  unfold verify_markdown. destruct (truthy analysis); cbn [negb]; [| discriminate].
  destruct analysis; try discriminate. eauto.
Qed.

(* ================================================================== *)
(** * The analysis client *)
(* ================================================================== *)

Section ClientFacts.

Variable E : Env.

Lemma on_exception_retry (retry : pyval -> M pyval) rc content e tr :
  rc < MAX_RETRIES ->
  on_exception retry rc content e tr
  = retry content (tr ++ [EvSleep (RETRY_DELAY * (rc + 1))]).
Proof.
  intros H. unfold on_exception.
  destruct (Z.ltb_spec rc MAX_RETRIES); [| lia].
  destruct (is_client_error e); reflexivity.
Qed.

Lemma on_exception_give_up (retry : pyval -> M pyval) rc content e tr :
  MAX_RETRIES <= rc ->
  on_exception retry rc content e tr
  = (Ok (VStr (if is_client_error e then network_error_text rc e
               else unexpected_error_text rc e)), tr).
Proof.
  intros H. unfold on_exception.
  destruct (Z.ltb_spec rc MAX_RETRIES); [lia |].
  destruct (is_client_error e); reflexivity.
Qed.

Lemma on_exception_ext (r1 r2 : pyval -> M pyval) rc content e tr :
  (rc < MAX_RETRIES -> forall c tr', r1 c tr' = r2 c tr') ->
  on_exception r1 rc content e tr = on_exception r2 rc content e tr.
Proof.
  intros H. destruct (Z.lt_ge_cases rc MAX_RETRIES) as [Hlt | Hge].
  - rewrite !on_exception_retry by exact Hlt. apply H, Hlt.
  - rewrite !on_exception_give_up by exact Hge. reflexivity.
Qed.

Lemma analyze_with_claude_body_ext (r1 r2 : pyval -> M pyval) content d rc tr :
  (rc < MAX_RETRIES -> forall c tr', r1 c tr' = r2 c tr') ->
  analyze_with_claude_body E r1 content d rc tr
  = analyze_with_claude_body E r2 content d rc tr.
Proof.
  intros H. unfold analyze_with_claude_body, bind, lift, guarded.
  destruct (truncate_content content MAX_CONTENT_LENGTH) as [t | e]; [| reflexivity].
  destruct (post E (request_of E t) tr) as [[[status text] | e] tr1];
    [| apply on_exception_ext, H].
  destruct (status =? 200).
  - destruct (loads E text) as [result | e]; [| apply on_exception_ext, H].
    destruct (message_content result) as [c' | e]; [| apply on_exception_ext, H].
    destruct (py_len c') as [n | e]; [reflexivity | apply on_exception_ext, H].
  - destruct (status =? 429); [| reflexivity].
    destruct (Z.ltb_spec rc MAX_RETRIES) as [Hlt | Hge]; [| reflexivity].
    unfold sleep, emit. rewrite (H Hlt).
    destruct (r2 _ _) as [[v | e] tr2]; [reflexivity | apply on_exception_ext, H].
Qed.

(** The recursion depth given to [analyze_with_claude] is never used up:
    the function satisfies the recursive equation of the source. *)
Lemma analyze_with_claude_unfold content d rc tr :
  analyze_with_claude E content d rc tr
  = analyze_with_claude_body
      E (fun c => analyze_with_claude E c d (rc + 1)) content d rc tr.
Proof.
  unfold analyze_with_claude at 1. cbn [analyze_with_claude_at].
  apply analyze_with_claude_body_ext. intros Hlt c tr'.
  unfold analyze_with_claude.
  replace (Z.to_nat (MAX_RETRIES - rc))
    with (S (Z.to_nat (MAX_RETRIES - (rc + 1)))) by lia.
  reflexivity.
Qed.

(** One attempt, by what the endpoint answers. *)

Lemma attempt_not_sent content d rc tr e :
  truncate_content content MAX_CONTENT_LENGTH = Raise e ->
  analyze_with_claude E content d rc tr = (Raise e, tr).
Proof.
  intros Ht. rewrite analyze_with_claude_unfold.
  unfold analyze_with_claude_body, bind, lift. rewrite Ht. reflexivity.
Qed.

Lemma attempt_transport_error content d rc tr t e :
  truncate_content content MAX_CONTENT_LENGTH = Ok t ->
  http_post E tr (request_of E t) = HttpRaise e ->
  analyze_with_claude E content d rc tr
  = on_exception (fun c => analyze_with_claude E c d (rc + 1)) rc content e
                 (tr ++ [EvPost (request_of E t)]).
Proof.
  intros Ht Hp. rewrite analyze_with_claude_unfold.
  unfold analyze_with_claude_body, bind, lift, guarded, post.
  rewrite Ht, Hp. reflexivity.
Qed.

Lemma attempt_undecodable content d rc tr t text e :
  truncate_content content MAX_CONTENT_LENGTH = Ok t ->
  http_post E tr (request_of E t) = Response 200 text ->
  loads E text = Raise e ->
  analyze_with_claude E content d rc tr
  = on_exception (fun c => analyze_with_claude E c d (rc + 1)) rc content e
                 (tr ++ [EvPost (request_of E t)]).
Proof.
  intros Ht Hp Hl. rewrite analyze_with_claude_unfold.
  unfold analyze_with_claude_body, bind, lift, guarded, post.
  rewrite Ht, Hp. cbn. rewrite Hl. reflexivity.
Qed.

Lemma attempt_no_content content d rc tr t text result e :
  truncate_content content MAX_CONTENT_LENGTH = Ok t ->
  http_post E tr (request_of E t) = Response 200 text ->
  loads E text = Ok result ->
  message_content result = Raise e ->
  analyze_with_claude E content d rc tr
  = on_exception (fun c => analyze_with_claude E c d (rc + 1)) rc content e
                 (tr ++ [EvPost (request_of E t)]).
Proof.
  intros Ht Hp Hl Hm. rewrite analyze_with_claude_unfold.
  unfold analyze_with_claude_body, bind, lift, guarded, post.
  rewrite Ht, Hp. cbn. rewrite Hl, Hm. reflexivity.
Qed.

Lemma attempt_content_without_len content d rc tr t text result value e :
  truncate_content content MAX_CONTENT_LENGTH = Ok t ->
  http_post E tr (request_of E t) = Response 200 text ->
  loads E text = Ok result ->
  message_content result = Ok value ->
  py_len value = Raise e ->
  analyze_with_claude E content d rc tr
  = on_exception (fun c => analyze_with_claude E c d (rc + 1)) rc value e
                 (tr ++ [EvPost (request_of E t)]).
Proof.
  intros Ht Hp Hl Hm Hn. rewrite analyze_with_claude_unfold.
  unfold analyze_with_claude_body, bind, lift, guarded, post.
  rewrite Ht, Hp. cbn. rewrite Hl, Hm, Hn. reflexivity.
Qed.

Lemma attempt_success content d rc tr t text result value n :
  truncate_content content MAX_CONTENT_LENGTH = Ok t ->
  http_post E tr (request_of E t) = Response 200 text ->
  loads E text = Ok result ->
  message_content result = Ok value ->
  py_len value = Ok n ->
  analyze_with_claude E content d rc tr
  = (Ok value, tr ++ [EvPost (request_of E t)]).
Proof.
  intros Ht Hp Hl Hm Hn. rewrite analyze_with_claude_unfold.
  unfold analyze_with_claude_body, bind, lift, guarded, post.
  rewrite Ht, Hp. cbn. rewrite Hl, Hm, Hn. reflexivity.
Qed.

Lemma attempt_rate_limited content d rc tr t text :
  truncate_content content MAX_CONTENT_LENGTH = Ok t ->
  http_post E tr (request_of E t) = Response 429 text ->
  rc < MAX_RETRIES ->
  analyze_with_claude E content d rc tr
  = guarded (analyze_with_claude E content d (rc + 1))
            (on_exception (fun c => analyze_with_claude E c d (rc + 1)) rc content)
            ret
            (tr ++ [EvPost (request_of E t)] ++ [EvSleep (RETRY_DELAY * (rc + 1))]).
Proof.
  intros Ht Hp Hlt. rewrite analyze_with_claude_unfold.
  unfold analyze_with_claude_body, bind, lift, guarded, post.
  rewrite Ht, Hp. cbn.
  destruct (Z.ltb_spec rc MAX_RETRIES); [| lia].
  rewrite <- app_assoc. reflexivity.
Qed.

Lemma attempt_rate_limited_last content d rc tr t text :
  truncate_content content MAX_CONTENT_LENGTH = Ok t ->
  http_post E tr (request_of E t) = Response 429 text ->
  MAX_RETRIES <= rc ->
  analyze_with_claude E content d rc tr
  = (Ok (VStr (max_retries_text text)), tr ++ [EvPost (request_of E t)]).
Proof.
  intros Ht Hp Hge. rewrite analyze_with_claude_unfold.
  unfold analyze_with_claude_body, bind, lift, guarded, post.
  rewrite Ht, Hp. cbn.
  destruct (Z.ltb_spec rc MAX_RETRIES); [lia | reflexivity].
Qed.

Lemma attempt_api_error content d rc tr t status text :
  truncate_content content MAX_CONTENT_LENGTH = Ok t ->
  http_post E tr (request_of E t) = Response status text ->
  status <> 200 -> status <> 429 ->
  analyze_with_claude E content d rc tr
  = (Ok (VStr (api_error_text status text)), tr ++ [EvPost (request_of E t)]).
Proof.
  intros Ht Hp H200 H429. rewrite analyze_with_claude_unfold.
  unfold analyze_with_claude_body, bind, lift, guarded, post.
  rewrite Ht, Hp.
  destruct (Z.eqb_spec status 200); [contradiction |].
  destruct (Z.eqb_spec status 429); [contradiction |].
  reflexivity.
Qed.

End ClientFacts.

Lemma truncate_content_text (s : pystr) (max_length : Z) :
  exists t, truncate_content (VStr s) max_length = Ok (VStr t).
Proof.
  unfold truncate_content. cbn.
  destruct (len s <=? max_length); eauto.
Qed.

Lemma max_retries_text_unfold (body : pystr) :
  max_retries_text body = u "达到最大重试次数 (5)，最后错误: " ++ body.
Proof. vm_compute. reflexivity. Qed.

Section RateLimit.

Variable E : Env.

Hypothesis always_429 :
  forall tr req, exists body, http_post E tr req = Response 429 body.

Lemma rate_limited_run content d t (n : nat) :
  truncate_content content MAX_CONTENT_LENGTH = Ok t ->
  forall rc tr,
    rc = MAX_RETRIES - Z.of_nat n ->
    exists body history,
      analyze_with_claude E content d rc tr
      = (Ok (VStr (max_retries_text body)), history ++ [EvPost (request_of E t)]) /\
      history ++ [EvPost (request_of E t)]
      = tr ++ EvPost (request_of E t) :: backoff (request_of E t) rc n /\
      http_post E history (request_of E t) = Response 429 body.
Proof.
  intros Ht. induction n as [| n IH]; intros rc tr Hrc.
  - destruct (always_429 tr (request_of E t)) as [body Hbody].
    exists body, tr.
    rewrite (attempt_rate_limited_last E content d rc tr t body Ht Hbody) by lia.
    split; [reflexivity | split; [reflexivity | exact Hbody]].
  - destruct (always_429 tr (request_of E t)) as [body0 Hbody0].
    rewrite (attempt_rate_limited E content d rc tr t body0 Ht Hbody0) by lia.
    destruct (IH (rc + 1)
                 (tr ++ [EvPost (request_of E t)] ++ [EvSleep (RETRY_DELAY * (rc + 1))])
                 ltac:(lia))
      as [body [history [Hrun [Hhist Hlast]]]].
    exists body, history. unfold guarded. rewrite Hrun.
    split; [reflexivity |]. split; [| exact Hlast].
    rewrite Hhist, <- !app_assoc. reflexivity.
Qed.

End RateLimit.

(** C4.  When every request is answered with HTTP 429, a call started
    with [retry_count = 0] sends the request [MAX_RETRIES + 1 = 6] times,
    sleeps 5, 10, 15, 20 and 25 seconds between consecutive requests, and
    returns the max-retries text with the body of the last answer. *)
Theorem rate_limited_six_attempts (E : Env) (s d : pystr) (tr : trace) :
  (forall tr' req, exists body, http_post E tr' req = Response 429 body) ->
  exists req body history,
    analyze_with_claude E (VStr s) d 0 tr
    = (Ok (VStr (u "达到最大重试次数 (5)，最后错误: " ++ body)), history ++ [EvPost req]) /\
    history
    = tr ++ [ EvPost req; EvSleep 5; EvPost req; EvSleep 10; EvPost req;
              EvSleep 15; EvPost req; EvSleep 20; EvPost req; EvSleep 25 ] /\
    http_post E history req = Response 429 body /\
    Z.of_nat (List.length (posts (history ++ [EvPost req])))
    = Z.of_nat (List.length (posts tr)) + (MAX_RETRIES + 1) /\
    MAX_RETRIES + 1 = 6 /\
    [5; 10; 15; 20; 25]
    = map (fun attempt => RETRY_DELAY * (attempt + 1)) [0; 1; 2; 3; 4].
Proof.
  intros H429.
  destruct (truncate_content_text s MAX_CONTENT_LENGTH) as [t Ht].
  destruct (rate_limited_run E H429 (VStr s) d (VStr t) 5 Ht 0 tr eq_refl)
    as [body [history [Hrun [Hhist Hlast]]]].
  rewrite max_retries_text_unfold in Hrun.
  revert Hrun Hhist Hlast. generalize (request_of E (VStr t)) as req.
  intros req Hrun Hhist Hlast.
  exists req, body, history.
  split; [exact Hrun |].
  assert (Hh : history
               = tr ++ [ EvPost req; EvSleep 5; EvPost req; EvSleep 10; EvPost req;
                         EvSleep 15; EvPost req; EvSleep 20; EvPost req; EvSleep 25 ]).
  { apply (app_inv_tail [EvPost req]).
    rewrite Hhist, <- app_assoc. reflexivity. }
  split; [exact Hh |]. split; [exact Hlast |].
  split; [| split; reflexivity].
  rewrite Hh, <- app_assoc, posts_app, length_app. cbn. lia.
Qed.

Lemma rate_limited_six_attempts_witness :
  exists req body history,
    analyze_with_claude (Sample.world (Sample.always (Response 429 Sample.body_busy)))
                        (VStr (u "print(1)")) (u ".") 0 []
    = (Ok (VStr (u "达到最大重试次数 (5)，最后错误: " ++ body)), history ++ [EvPost req]) /\
    sleeps history = [5; 10; 15; 20; 25] /\
    List.length (posts (history ++ [EvPost req])) = 6%nat.
Proof.
  destruct (rate_limited_six_attempts
              (Sample.world (Sample.always (Response 429 Sample.body_busy)))
              (u "print(1)") (u ".") [])
    as [req [body [history [Hrun [Hh _]]]]].
  - intros tr' req. exists Sample.body_busy. reflexivity.
  - exists req, body, history. split; [exact Hrun |].
    rewrite Hh. split; reflexivity.
Defined.

(* ================================================================== *)
(** * Text that UTF-8 cannot encode *)
(* ================================================================== *)

Lemma first_surrogates_None (s : pystr) :
  forall i, first_surrogates s i = None <-> utf8_encodable s = true.
Proof.
  induction s as [| c s IH]; intros i; cbn [first_surrogates utf8_encodable forallb].
  - split; reflexivity.
  - destruct (is_surrogate c); cbn [negb andb].
    + split; discriminate.
    + apply IH.
Qed.

Lemma utf8_encode_error_None (s : pystr) :
  utf8_encode_error s = None <-> utf8_encodable s = true.
Proof.
  rewrite <- (first_surrogates_None s 0). unfold utf8_encode_error.
  destruct (first_surrogates s 0) as [[[start c] last] |]; split;
    first [discriminate | reflexivity].
Qed.

Lemma utf8_encode_error_class (s : pystr) (e : exn) :
  utf8_encode_error s = Some e -> exn_class e = UnicodeEncodeError.
Proof.
  unfold utf8_encode_error.
  destruct (first_surrogates s 0) as [[[start c] last] |]; [| discriminate].
  intros H. injection H as <-. reflexivity.
Qed.

Lemma utf8_encode_error_Some (s : pystr) :
  utf8_encodable s = false ->
  exists e, utf8_encode_error s = Some e /\ exn_class e = UnicodeEncodeError.
Proof.
  intros H. destruct (utf8_encode_error s) as [e |] eqn:He.
  - exists e. split; [reflexivity | apply (utf8_encode_error_class s), He].
  - apply utf8_encode_error_None in He. congruence.
Qed.

(* ================================================================== *)
(** * What a coroutine adds to the trace *)
(* ================================================================== *)


Lemma quiet_ret {A} (a : A) : quiet (ret a).
Proof. intros tr. exists []. rewrite app_nil_r. split; reflexivity. Qed.

Lemma quiet_lift {A} (r : outcome A) : quiet (lift r).
Proof. intros tr. exists []. rewrite app_nil_r. split; reflexivity. Qed.

Lemma quiet_raise {A} (e : exn) : quiet (@raise A e).
Proof. intros tr. exists []. rewrite app_nil_r. split; reflexivity. Qed.

Lemma quiet_sleep (seconds : Z) : quiet (sleep seconds).
Proof. intros tr. exists [EvSleep seconds]. split; reflexivity. Qed.

Lemma quiet_post (E : Env) (r : request) : quiet (post E r).
Proof.
  intros tr. exists [EvPost r]. unfold post.
  destruct (http_post E tr r); split; reflexivity.
Qed.

Lemma quiet_guarded {A B} (m : M A) (handler : exn -> M B) (k : A -> M B) :
  quiet m -> (forall e, quiet (handler e)) -> (forall a, quiet (k a)) ->
  quiet (guarded m handler k).
Proof.
  intros Hm Hh Hk tr. unfold guarded.
  destruct (Hm tr) as [new1 [H1 W1]].
  destruct (m tr) as [[a | e] tr1]; cbn in H1; subst tr1.
  - destruct (Hk a (tr ++ new1)) as [new2 [H2 W2]].
    exists (new1 ++ new2). rewrite H2, app_assoc, writes_app, W1, W2.
    split; reflexivity.
  - destruct (Hh e (tr ++ new1)) as [new2 [H2 W2]].
    exists (new1 ++ new2). rewrite H2, app_assoc, writes_app, W1, W2.
    split; reflexivity.
Qed.

Lemma quiet_bind {A B} (m : M A) (k : A -> M B) :
  quiet m -> (forall a, quiet (k a)) -> quiet (bind m k).
Proof.
  intros Hm Hk. apply (quiet_guarded m (fun e => raise e) k Hm); [| exact Hk].
  intros e. apply quiet_raise.
Qed.


Section Quiet.

Variable E : Env.

Lemma quiet_on_exception (retry : pyval -> M pyval) rc content e :
  (forall c, quiet (retry c)) -> quiet (on_exception retry rc content e).
Proof.
  intros Hr. unfold on_exception.
  destruct (is_client_error e); destruct (rc <? MAX_RETRIES);
    first [ apply quiet_ret
          | apply quiet_bind; [apply quiet_sleep | intros _; apply Hr] ].
Qed.

Lemma quiet_analyze_with_claude_body (retry : pyval -> M pyval) content d rc :
  (forall c, quiet (retry c)) ->
  quiet (analyze_with_claude_body E retry content d rc).
Proof.
  intros Hr. unfold analyze_with_claude_body.
  apply quiet_bind; [apply quiet_lift |]. intros t.
  apply quiet_guarded;
    [apply quiet_post | intros e; apply quiet_on_exception, Hr |].
  intros [status text].
  destruct (status =? 200).
  - apply quiet_guarded;
      [apply quiet_lift | intros e; apply quiet_on_exception, Hr |]. intros result.
    apply quiet_guarded;
      [apply quiet_lift | intros e; apply quiet_on_exception, Hr |]. intros value.
    apply quiet_guarded;
      [apply quiet_lift | intros e; apply quiet_on_exception, Hr |]. intros _.
    apply quiet_ret.
  - destruct (status =? 429); [| apply quiet_ret].
    destruct (rc <? MAX_RETRIES); [| apply quiet_ret].
    apply quiet_guarded;
      [| intros e; apply quiet_on_exception, Hr | intros a; apply quiet_ret].
    apply quiet_bind; [apply quiet_sleep | intros _; apply Hr].
Qed.

Lemma quiet_analyze_with_claude_at depth :
  forall content d rc, quiet (analyze_with_claude_at E depth content d rc).
Proof.
  induction depth as [| depth IH]; intros content d rc; cbn.
  - apply quiet_raise.
  - apply quiet_analyze_with_claude_body. intros c. apply IH.
Qed.

Lemma quiet_analyze_with_claude content d rc :
  quiet (analyze_with_claude E content d rc).
Proof. apply quiet_analyze_with_claude_at. Qed.





End Quiet.




Example valid_report_written :
  analyze_single_directory Sample.world_html_then_report (u "proj") (u "proj") []
  = (Ok tt,
     [ EvPost (request_of Sample.world_html_then_report
                          (VStr (file_part (u "a.py") (u "print(1)") ++ nl
                                 ++ file_part (u "b.py")
                                              (read_error_text Sample.decode_failure))));
       EvSleep 5;
       EvPost (request_of Sample.world_html_then_report
                          (VStr (file_part (u "a.py") (u "print(1)") ++ nl
                                 ++ file_part (u "b.py")
                                              (read_error_text Sample.decode_failure))));
       EvWrite (u "proj/directory_analysis_20240101_120000.md") Sample.report ]).
Proof. vm_compute. reflexivity. Qed.

Example invalid_report_not_written :
  writes (snd (analyze_single_directory
                 (Sample.world (Sample.always (Response 200 Sample.body_error)))
                 (u "proj") (u "proj") []))
  = [] /\
  List.length (posts (snd (analyze_single_directory
                             (Sample.world (Sample.always (Response 200 Sample.body_error)))
                             (u "proj") (u "proj") [])))
  = 30%nat.
Proof. vm_compute. split; reflexivity. Qed.

(* ================================================================== *)
(** * The directory analyzer *)
(* ================================================================== *)

Section DirectoryFacts.

Variable E : Env.

Lemma get_file_content_file_text (file_path : pystr) :
  get_file_content E file_path = Ok (file_text E file_path).
Proof.
  unfold get_file_content, file_text. destruct (read_text E file_path); reflexivity.
Qed.

Lemma content_parts_map (directory : pystr) (files : list pystr) :
  content_parts E directory files
  = Ok (map (fun file_path =>
               file_part (os_relpath E file_path directory) (file_text E file_path))
            files).
Proof.
  induction files as [| file_path files IH]; [reflexivity |].
  cbn [content_parts map]. unfold content_part.
  rewrite get_file_content_file_text, IH. reflexivity.
Qed.

Lemma validation_loop_accepts rounds directory full_content dir_name analysis tr :
  verify_markdown analysis = Ok true ->
  validation_loop E (S rounds) directory full_content dir_name 0 analysis tr
  = save_report E directory analysis tr.
Proof.
  intros Hv. cbn [validation_loop].
  change (negb (0 <? MAX_RETRIES)) with false. cbv iota.
  unfold bind, lift. rewrite Hv. reflexivity.
Qed.

Lemma bind_ext {A B} (m : M A) (k1 k2 : A -> M B) (tr : trace) :
  (forall a tr', k1 a tr' = k2 a tr') -> bind m k1 tr = bind m k2 tr.
Proof.
  intros H. unfold bind. destruct (m tr) as [[a | e] tr']; [apply H | reflexivity].
Qed.

(** The loop ends by its own condition: any bound of at least
    [MAX_RETRIES - retry_count] rounds gives the same run. *)
Lemma validation_loop_rounds (r1 : nat) :
  forall (r2 : nat) directory full_content dir_name rc analysis tr,
    (Z.to_nat (MAX_RETRIES - rc) <= r1)%nat ->
    (Z.to_nat (MAX_RETRIES - rc) <= r2)%nat ->
    validation_loop E r1 directory full_content dir_name rc analysis tr
    = validation_loop E r2 directory full_content dir_name rc analysis tr.
Proof.
  induction r1 as [| r1 IH]; intros r2 directory full_content dir_name rc analysis tr
                                    H1 H2;
    destruct r2 as [| r2]; cbn [validation_loop];
    destruct (Z.ltb_spec rc MAX_RETRIES) as [Hlt | Hge]; cbn [negb];
    try reflexivity; try lia.
  apply bind_ext. intros [|] tr1; [reflexivity |].
  destruct (rc + 1 <? MAX_RETRIES); [| apply IH; lia].
  apply bind_ext. intros _ tr2. apply bind_ext. intros analysis' tr3.
  apply IH; lia.
Qed.

Lemma save_report_text directory text tr :
  utf8_encodable text = true ->
  open_for_write E (report_path directory (now_strftime E tr)) = Ok tt ->
  save_report E directory (VStr text) tr
  = (Ok tt, tr ++ [EvWrite (report_path directory (now_strftime E tr)) text]).
Proof.
  intros Henc Hopen. unfold save_report. cbv zeta. rewrite Hopen.
  apply utf8_encode_error_None in Henc. rewrite Henc. reflexivity.
Qed.

Lemma save_report_not_encodable directory text e tr :
  utf8_encode_error text = Some e ->
  open_for_write E (report_path directory (now_strftime E tr)) = Ok tt ->
  save_report E directory (VStr text) tr
  = (Raise e, tr ++ [EvWrite (report_path directory (now_strftime E tr)) []]).
Proof.
  intros Henc Hopen. unfold save_report. cbv zeta. rewrite Hopen, Henc. reflexivity.
Qed.

(** A directory that is analyzed: the run is the first call of the
    client on the bundle, followed by the validation loop. *)
Lemma analyze_single_directory_run directory base_dir items tr :
  should_skip_directory directory = false ->
  os_listdir E directory = Ok items ->
  eligible_files E directory items <> [] ->
  analyze_single_directory E directory base_dir tr
  = bind (analyze_with_claude
            E (VStr (join nl (map (fun file_path =>
                                     file_part (os_relpath E file_path directory)
                                               (file_text E file_path))
                                  (eligible_files E directory items))))
            (os_relpath E directory base_dir) 0)
         (validation_loop
            E (Z.to_nat MAX_RETRIES) directory
            (join nl (map (fun file_path =>
                             file_part (os_relpath E file_path directory)
                                       (file_text E file_path))
                          (eligible_files E directory items)))
            (os_relpath E directory base_dir) 0)
         tr.
Proof.
  intros Hskip Hlist Hfiles. unfold analyze_single_directory.
  rewrite Hskip. unfold bind at 1, lift at 1. rewrite Hlist.
  destruct (eligible_files E directory items) as [| file_path files] eqn:Hel;
    [contradiction |].
  unfold bind at 1, lift at 1. rewrite content_parts_map. reflexivity.
Qed.

End DirectoryFacts.

(** C8.  There is a response body with which the failure text of an
    exhausted retry budget passes [verify_markdown], so that
    [analyze_single_directory] writes the failure text to the report
    file. *)
Theorem failure_text_saved_as_report :
  exists body,
    forall (E : Env) (directory base_dir : pystr) (tr : trace) (items : list pystr),
      (forall tr' req, http_post E tr' req = Response 429 body) ->
      should_skip_directory directory = false ->
      os_listdir E directory = Ok items ->
      eligible_files E directory items <> [] ->
      (forall path, open_for_write E path = Ok tt) ->
      exists full_content dir_name history,
        analyze_with_claude E (VStr full_content) dir_name 0 tr
        = (Ok (VStr (max_retries_text body)), history) /\
        max_retries_text body = u "达到最大重试次数 (5)，最后错误: " ++ body /\
        List.length (posts history) = (List.length (posts tr) + 6)%nat /\
        verify_markdown (VStr (max_retries_text body)) = Ok true /\
        analyze_single_directory E directory base_dir tr
        = (Ok tt,
           history ++ [EvWrite (report_path directory (now_strftime E history))
                               (max_retries_text body)]).
Proof.
  exists Sample.body_busy.
  intros E directory base_dir tr items H429 Hskip Hlist Hfiles Hopen.
  rewrite (analyze_single_directory_run E directory base_dir items tr Hskip Hlist Hfiles).
  set (full_content := join nl _).
  set (dir_name := os_relpath E directory base_dir).
  destruct (truncate_content_text full_content MAX_CONTENT_LENGTH) as [t Ht].
  assert (H429' : forall tr' req, exists body, http_post E tr' req = Response 429 body)
    by (intros tr' req; eexists; apply H429).
  destruct (rate_limited_run E H429' (VStr full_content) dir_name (VStr t) 5 Ht 0 tr
                             eq_refl)
    as [body [history [Hrun [Hhist Hlast]]]].
  rewrite H429 in Hlast. injection Hlast as <-.
  assert (Hvalid : verify_markdown (VStr (max_retries_text Sample.body_busy)) = Ok true)
    by (vm_compute; reflexivity).
  exists full_content, dir_name, (history ++ [EvPost (request_of E (VStr t))]).
  split; [exact Hrun |]. split; [apply max_retries_text_unfold |].
  split; [rewrite Hhist, posts_app; cbn; rewrite length_app; reflexivity |].
  split; [exact Hvalid |].
  unfold bind. rewrite Hrun.
  change (Z.to_nat MAX_RETRIES) with 5%nat.
  rewrite validation_loop_accepts by exact Hvalid.
  apply save_report_text; [vm_compute; reflexivity | apply Hopen].
Qed.

Lemma failure_text_saved_as_report_witness :
  exists body history,
    analyze_single_directory
      (Sample.world (Sample.always (Response 429 body))) (u "proj") (u "proj") []
    = (Ok tt,
       history ++ [EvWrite (report_path (u "proj") (u "20240101_120000"))
                           (max_retries_text body)]) /\
    List.length (posts history) = 6%nat.
Proof.
  destruct failure_text_saved_as_report as [body H].
  destruct (H (Sample.world (Sample.always (Response 429 body)))
              (u "proj") (u "proj") [] [u "a.py"; u "logo.png"; u "b.py"; u "venv"])
    as [full_content [dir_name [history [_ [_ [Hposts [_ Hrun]]]]]]].
  - intros tr' req. reflexivity.
  - vm_compute. reflexivity.
  - vm_compute. reflexivity.
  - vm_compute. discriminate.
  - intros path. reflexivity.
  - exists body, history. split; [| exact Hposts].
    rewrite Hrun. reflexivity.
Defined.

(* ================================================================== *)
(** * The content loader *)
(* ================================================================== *)

Lemma occurs_in_refl (s : pystr) : occurs_in s s.
Proof. exists [], []. rewrite app_nil_r. reflexivity. Qed.

Lemma occurs_in_trans (a b c : pystr) :
  occurs_in a b -> occurs_in b c -> occurs_in a c.
Proof.
  intros [p1 [q1 ->]] [p2 [q2 ->]].
  exists (p2 ++ p1), (q1 ++ q2). rewrite <- !app_assoc. reflexivity.
Qed.

Lemma occurs_in_app_l (a s t : pystr) : occurs_in a s -> occurs_in a (s ++ t).
Proof.
  intros [p [q ->]]. exists p, (q ++ t). rewrite <- !app_assoc. reflexivity.
Qed.

Lemma occurs_in_app_r (a s t : pystr) : occurs_in a t -> occurs_in a (s ++ t).
Proof.
  intros [p [q ->]]. exists (s ++ p), q. rewrite <- !app_assoc. reflexivity.
Qed.

Lemma join_occurs (sep : pystr) (parts : list pystr) (p : pystr) :
  In p parts -> occurs_in p (join sep parts).
Proof.
  induction parts as [| q parts IH]; [intros [] |].
  intros [-> | Hin].
  - destruct parts; [apply occurs_in_refl |].
    cbn [join]. apply occurs_in_app_l, occurs_in_refl.
  - destruct parts as [| r parts]; [destruct Hin |].
    cbn [join]. apply occurs_in_app_r, occurs_in_app_r, IH, Hin.
Qed.

Lemma file_part_occurs (rel_path content : pystr) :
  occurs_in content (file_part rel_path content).
Proof.
  unfold file_part.
  exists (nl ++ u "### File: " ++ rel_path ++ nl ++ u "```" ++ nl), (nl ++ u "```").
  rewrite <- !app_assoc. reflexivity.
Qed.

Lemma read_error_text_unfold (e : exn) :
  read_error_text e = u "Error reading file: " ++ exn_str e.
Proof. reflexivity. Qed.

(** C9.  [get_file_content] returns text for every path and never
    raises: the text of the file when it can be read, and otherwise a
    description of the error; the directory analyzer puts that text into
    the bundle it sends, like the text of any other file. *)
Theorem get_file_content_never_raises (E : Env) (file_path : pystr) :
  exists content,
    get_file_content E file_path = Ok content /\
    (forall text, read_text E file_path = Ok text -> content = text) /\
    (forall e, read_text E file_path = Raise e ->
               content = u "Error reading file: " ++ exn_str e) /\
    (forall directory files,
       In file_path files ->
       exists parts,
         content_parts E directory files = Ok parts /\
         In (file_part (os_relpath E file_path directory) content) parts) /\
    (forall directory base_dir items tr,
       should_skip_directory directory = false ->
       os_listdir E directory = Ok items ->
       In file_path (eligible_files E directory items) ->
       exists full_content,
         occurs_in content full_content /\
         analyze_single_directory E directory base_dir tr
         = bind (analyze_with_claude E (VStr full_content)
                                     (os_relpath E directory base_dir) 0)
                (validation_loop E (Z.to_nat MAX_RETRIES) directory full_content
                                 (os_relpath E directory base_dir) 0)
                tr).
Proof.
  exists (file_text E file_path).
  split; [apply get_file_content_file_text |].
  split; [intros text H; unfold file_text; rewrite H; reflexivity |].
  split; [intros e H; unfold file_text; rewrite H; apply read_error_text_unfold |].
  split.
  - intros directory files Hin. eexists. split; [apply content_parts_map |].
    apply (in_map (fun f => file_part (os_relpath E f directory) (file_text E f))),
          Hin.
  - intros directory base_dir items tr Hskip Hlist Hin. eexists. split.
    + eapply occurs_in_trans; [apply file_part_occurs |].
      apply join_occurs.
      apply (in_map (fun f => file_part (os_relpath E f directory) (file_text E f))),
            Hin.
    + apply analyze_single_directory_run; [exact Hskip | exact Hlist |].
      intros Hnil. rewrite Hnil in Hin. destruct Hin.
Qed.

Lemma get_file_content_never_raises_witness :
  get_file_content Sample.world_busy (u "proj/a.py") = Ok (u "print(1)") /\
  get_file_content Sample.world_busy (u "proj/b.py")
  = Ok (u "Error reading file: " ++ exn_str Sample.decode_failure).
Proof.
  destruct (get_file_content_never_raises Sample.world_busy (u "proj/a.py"))
    as [content1 [Hrun1 [Hok1 _]]].
  destruct (get_file_content_never_raises Sample.world_busy (u "proj/b.py"))
    as [content2 [Hrun2 [_ [Herr2 _]]]].
  split.
  - rewrite Hrun1. f_equal. apply Hok1. vm_compute. reflexivity.
  - rewrite Hrun2. f_equal. apply Herr2. vm_compute. reflexivity.
Defined.

(* ================================================================== *)
(** * The skip list and the task list *)
(* ================================================================== *)

Lemma basename_suffix (p : pystr) : exists before, p = before ++ basename p.
Proof.
  unfold basename, slice_from. eexists. symmetry. apply firstn_skipn.
Qed.

Lemma analyze_single_directory_skipped (E : Env) (directory base_dir : pystr)
      (tr : trace) :
  should_skip_directory directory = true ->
  analyze_single_directory E directory base_dir tr = (Ok tt, tr).
Proof.
  intros H. unfold analyze_single_directory. rewrite H. reflexivity.
Qed.

Lemma dirs_to_process_spec (base_dir : pystr) (t : dirtree) (directory : pystr) :
  In directory (dirs_to_process base_dir t) <->
  In directory (os_walk_roots base_dir t) /\ ~ occurs_in (u "node_modules") directory.
Proof.
  unfold dirs_to_process. rewrite filter_In, negb_true_iff, contains_false.
  reflexivity.
Qed.

(** C2, as the code has it.  A directory whose base name is in the skip
    set is never analyzed: [analyze_single_directory] returns at once,
    whatever the directory holds.  The task list leaves out exactly the
    walked directories whose path contains [node_modules], so a directory
    named [node_modules] is not collected. *)
Theorem skip_set_directory_not_analyzed (E : Env) (base_dir : pystr) (t : dirtree)
        (directory : pystr) :
  (should_skip_directory directory = true ->
   forall b tr, analyze_single_directory E directory b tr = (Ok tt, tr)) /\
  (In directory (dirs_to_process base_dir t) <->
   In directory (os_walk_roots base_dir t) /\
   ~ occurs_in (u "node_modules") directory) /\
  (basename directory = u "node_modules" ->
   ~ In directory (dirs_to_process base_dir t)).
Proof.
  split; [| split].
  - intros H b tr. apply analyze_single_directory_skipped, H.
  - apply dirs_to_process_spec.
  - intros Hname Hin. apply dirs_to_process_spec in Hin. destruct Hin as [_ Hno].
    apply Hno. destruct (basename_suffix directory) as [before Hb].
    exists before, []. rewrite app_nil_r, <- Hname. exact Hb.
Qed.

Lemma skip_set_directory_not_analyzed_witness :
  analyze_single_directory Sample.world_busy (u "proj/venv") (u "proj") [] = (Ok tt, []) /\
  ~ In (u "proj/node_modules")
       (dirs_to_process (u "proj") (Dir [ (u "node_modules", Dir []) ])).
Proof.
  destruct (skip_set_directory_not_analyzed
              Sample.world_busy (u "proj") Sample.tree (u "proj/venv")) as [Hskip _].
  destruct (skip_set_directory_not_analyzed
              Sample.world_busy (u "proj") (Dir [ (u "node_modules", Dir []) ])
              (u "proj/node_modules")) as [_ [_ Hnode]].
  split.
  - apply Hskip. vm_compute. reflexivity.
  - apply Hnode. vm_compute. reflexivity.
Defined.

(** C2, as stated, fails: a directory named [venv] is in the skip set
    and yet is collected into the task list, although it holds a file with
    an analyzable extension. *)
Lemma skip_set_directory_collected :
  should_skip_directory (u "proj/venv") = true /\
  dirs_to_process (u "proj") Sample.tree = [u "proj"; u "proj/venv"] /\
  eligible_files Sample.world_busy (u "proj/venv") [u "site.py"]
  = [u "proj/venv/site.py"].
Proof. vm_compute. repeat split. Qed.

(* ================================================================== *)
(** * Malformed success bodies *)
(* ================================================================== *)

Lemma getitem_key_error (v : pyval) (key : pystr) (e : exn) :
  getitem_key v key = Raise e -> is_client_error e = false.
Proof.
  destruct v; cbn; try (intros H; injection H as <-; reflexivity).
  destruct (dict_get items key); [discriminate |].
  intros H; injection H as <-; reflexivity.
Qed.

Lemma getitem_0_error (v : pyval) (e : exn) :
  getitem_0 v = Raise e -> is_client_error e = false.
Proof.
  destruct v as [| | | | s | items | items]; cbn;
    try (intros H; injection H as <-; reflexivity).
  - destruct s; [| discriminate]. intros H; injection H as <-; reflexivity.
  - destruct items; [| discriminate]. intros H; injection H as <-; reflexivity.
Qed.

Lemma message_content_error (result : pyval) (e : exn) :
  message_content result = Raise e -> is_client_error e = false.
Proof.
  unfold message_content, rbind.
  destruct (getitem_key result (u "choices")) as [choices |] eqn:H1;
    [| intros H; injection H as <-; eapply getitem_key_error, H1].
  destruct (getitem_0 choices) as [first |] eqn:H2;
    [| intros H; injection H as <-; eapply getitem_0_error, H2].
  destruct (getitem_key first (u "message")) as [message |] eqn:H3;
    [| intros H; injection H as <-; eapply getitem_key_error, H3].
  apply getitem_key_error.
Qed.

Lemma loads_error (E : Env) (text : pystr) (e : exn) :
  loads E text = Raise e -> is_client_error e = false.
Proof.
  unfold loads. destruct (json_loads E text); [discriminate |].
  intros H; injection H as <-; reflexivity.
Qed.

Lemma unexpected_error_text_unfold (rc : Z) (e : exn) :
  unexpected_error_text rc e
  = u "错误 (重试" ++ str_of_int rc ++ u "次后): " ++ exn_str e.
Proof. reflexivity. Qed.

(** C1, as the code has it.  A 200 answer whose body cannot be decoded,
    or from which [choices[0].message.content] cannot be read, is handled
    by the catch-all clause: while [retry_count < MAX_RETRIES] the call
    sleeps [RETRY_DELAY * (retry_count + 1)] seconds and starts over with
    [retry_count + 1]; only with the budget used up does it return the
    failure text, without a further request. *)
Theorem malformed_success_body_retried (E : Env) (s d : pystr) (rc : Z) (tr : trace)
        (t : pyval) (text : pystr) (e : exn) :
  truncate_content (VStr s) MAX_CONTENT_LENGTH = Ok t ->
  http_post E tr (request_of E t) = Response 200 text ->
  (loads E text = Raise e \/
   exists result, loads E text = Ok result /\ message_content result = Raise e) ->
  (rc < MAX_RETRIES ->
   analyze_with_claude E (VStr s) d rc tr
   = analyze_with_claude
       E (VStr s) d (rc + 1)
       (tr ++ [EvPost (request_of E t); EvSleep (RETRY_DELAY * (rc + 1))])) /\
  (MAX_RETRIES <= rc ->
   analyze_with_claude E (VStr s) d rc tr
   = (Ok (VStr (u "错误 (重试" ++ str_of_int rc ++ u "次后): " ++ exn_str e)),
      tr ++ [EvPost (request_of E t)])).
Proof.
  intros Ht Hp Hbad.
  assert (Hstep : analyze_with_claude E (VStr s) d rc tr
                  = on_exception (fun c => analyze_with_claude E c d (rc + 1))
                                 rc (VStr s) e (tr ++ [EvPost (request_of E t)]) /\
                  is_client_error e = false).
  { destruct Hbad as [Hl | [result [Hl Hm]]].
    - split; [eapply attempt_undecodable; eassumption | eapply loads_error, Hl].
    - split; [eapply attempt_no_content; eassumption
             | eapply message_content_error, Hm]. }
  destruct Hstep as [Hstep Hclass]. split; intros Hrc; rewrite Hstep.
  - rewrite on_exception_retry by exact Hrc. rewrite <- app_assoc. reflexivity.
  - rewrite on_exception_give_up by exact Hrc. rewrite Hclass.
    rewrite unexpected_error_text_unfold. reflexivity.
Qed.

Lemma malformed_success_body_retried_witness :
  analyze_with_claude Sample.world_html_then_report (VStr (u "print(1)")) (u ".") 0 []
  = analyze_with_claude
      Sample.world_html_then_report (VStr (u "print(1)")) (u ".") (0 + 1)
      ([] ++ [EvPost (request_of Sample.world_html_then_report (VStr (u "print(1)")));
              EvSleep (RETRY_DELAY * (0 + 1))]).
Proof.
  apply (malformed_success_body_retried
           Sample.world_html_then_report (u "print(1)") (u ".") 0 []
           (VStr (u "print(1)")) Sample.body_html
           (mkExn JSONDecodeError (u "Expecting value: line 1 column 1 (char 0)"))).
  - vm_compute. reflexivity.
  - vm_compute. reflexivity.
  - left. vm_compute. reflexivity.
  - reflexivity.
Defined.

(** C1, as stated, fails: after a 200 answer that is not JSON, and after
    one without the key [choices], a call with [retry_count = 0] sleeps
    five seconds, sends the request again and returns the report of the
    second answer; no failure text is returned. *)
Lemma malformed_success_body_second_request :
  loads Sample.world_html_then_report Sample.body_html
  = Raise (mkExn JSONDecodeError (u "Expecting value: line 1 column 1 (char 0)")) /\
  analyze_with_claude Sample.world_html_then_report (VStr (u "print(1)")) (u ".") 0 []
  = (Ok (VStr Sample.report),
     [ EvPost (request_of Sample.world_html_then_report (VStr (u "print(1)")));
       EvSleep 5;
       EvPost (request_of Sample.world_html_then_report (VStr (u "print(1)"))) ]) /\
  rbind (loads Sample.world_error_then_report Sample.body_error) message_content
  = Raise (mkExn KeyError (u "'choices'")) /\
  analyze_with_claude Sample.world_error_then_report (VStr (u "print(1)")) (u ".") 0 []
  = (Ok (VStr Sample.report),
     [ EvPost (request_of Sample.world_error_then_report (VStr (u "print(1)")));
       EvSleep 5;
       EvPost (request_of Sample.world_error_then_report (VStr (u "print(1)"))) ]).
Proof. vm_compute. repeat split. Qed.

(* ================================================================== *)
(** * Success bodies whose content is not text *)
(* ================================================================== *)

Lemma truncate_content_without_len (value : pyval) (max_length : Z) (e : exn) :
  py_len value = Raise e -> truncate_content value max_length = Raise e.
Proof.
  intros H. unfold truncate_content, rbind. rewrite H. reflexivity.
Qed.

(** A decoded content without [len] makes the call raise, in any world,
    as long as a retry is left: the retry gets the decoded content and
    fails on line 74. *)
Lemma content_without_len_escapes (E : Env) (s d : pystr) (rc : Z) (tr : trace)
      (t : pyval) (text : pystr) (result value : pyval) (e : exn) :
  truncate_content (VStr s) MAX_CONTENT_LENGTH = Ok t ->
  http_post E tr (request_of E t) = Response 200 text ->
  loads E text = Ok result ->
  message_content result = Ok value ->
  py_len value = Raise e ->
  rc < MAX_RETRIES ->
  analyze_with_claude E (VStr s) d rc tr
  = (Raise e, tr ++ [EvPost (request_of E t); EvSleep (RETRY_DELAY * (rc + 1))]).
Proof.
  intros Ht Hp Hl Hm Hn Hrc.
  rewrite (attempt_content_without_len E (VStr s) d rc tr t text result value e)
    by assumption.
  rewrite on_exception_retry by exact Hrc.
  rewrite attempt_not_sent with (e := e)
    by (apply truncate_content_without_len; exact Hn).
  rewrite <- app_assoc. reflexivity.
Qed.

(** C7 fails on the code.  When a 200 answer carries [null] as message
    content, line 127 stores it in [content], [len(content)] on line 128
    raises, the catch-all clause calls [analyze_with_claude] again with
    that [content], and the new call raises on line 74, outside any
    [try]: the [TypeError] leaves [analyze_with_claude].  When the content
    is an array, the call returns the array, which is not text. *)
Theorem analyze_with_claude_null_content_raises :
  analyze_with_claude Sample.world_null (VStr (u "print(1)")) (u ".") 0 []
  = (Raise (mkExn TypeError (u "object of type 'NoneType' has no len()")),
     [ EvPost (request_of Sample.world_null (VStr (u "print(1)"))); EvSleep 5 ]) /\
  analyze_with_claude Sample.world_array (VStr (u "print(1)")) (u ".") 0 []
  = (Ok (VList [VStr (u "ok")]),
     [ EvPost (request_of Sample.world_array (VStr (u "print(1)"))) ]).
Proof. vm_compute. split; reflexivity. Qed.

Section TextContents.

Variable E : Env.

(** Every 200 answer that can be decoded and has a message content has
    text there. *)
Hypothesis text_contents :
  forall tr req text result value,
    http_post E tr req = Response 200 text ->
    loads E text = Ok result ->
    message_content result = Ok value ->
    exists s, value = VStr s.

Lemma on_exception_returns_text (retry : pyval -> M pyval) rc s e :
  (rc < MAX_RETRIES -> returns_text (retry (VStr s))) ->
  returns_text (on_exception retry rc (VStr s) e).
Proof.
  intros Hr tr. destruct (Z.lt_ge_cases rc MAX_RETRIES) as [Hlt | Hge].
  - rewrite on_exception_retry by exact Hlt. apply (Hr Hlt).
  - rewrite on_exception_give_up by exact Hge. eauto.
Qed.

Lemma analyze_with_claude_body_returns_text (retry : pyval -> M pyval) s d rc :
  (rc < MAX_RETRIES -> returns_text (retry (VStr s))) ->
  returns_text (analyze_with_claude_body E retry (VStr s) d rc).
Proof.
  intros Hr tr. unfold analyze_with_claude_body, bind, lift, guarded.
  destruct (truncate_content_text s MAX_CONTENT_LENGTH) as [t ->].
  unfold post. destruct (http_post E tr (request_of E (VStr t))) as [status text | e] eqn:Hp;
    [| apply on_exception_returns_text, Hr].
  destruct (status =? 200) eqn:H200.
  - apply Z.eqb_eq in H200. subst status.
    destruct (loads E text) as [result | e] eqn:Hl;
      [| apply on_exception_returns_text, Hr].
    destruct (message_content result) as [value | e] eqn:Hm;
      [| apply on_exception_returns_text, Hr].
    destruct (text_contents _ _ _ _ _ Hp Hl Hm) as [s' ->].
    cbn. unfold ret. eauto.
  - destruct (status =? 429); [| unfold ret; eauto].
    destruct (Z.ltb_spec rc MAX_RETRIES) as [Hlt | Hge]; [| unfold ret; eauto].
    unfold sleep, emit.
    destruct (Hr Hlt ((tr ++ [EvPost (request_of E (VStr t))])
                        ++ [EvSleep (RETRY_DELAY * (rc + 1))]))
      as [s' [tr' Hrun]].
    rewrite Hrun. unfold ret. eauto.
Qed.

Lemma analyze_with_claude_at_returns_text depth :
  forall s d rc,
    (Z.to_nat (MAX_RETRIES - rc) < depth)%nat ->
    returns_text (analyze_with_claude_at E depth (VStr s) d rc).
Proof.
  induction depth as [| depth IH]; intros s d rc Hdepth; [lia |].
  cbn [analyze_with_claude_at].
  apply analyze_with_claude_body_returns_text. intros Hlt.
  apply IH. lia.
Qed.

(** Where every decoded message content is text, [analyze_with_claude]
    on text returns text, whatever else the endpoint does. *)
Lemma analyze_with_claude_returns_text (s d : pystr) (rc : Z) (tr : trace) :
  exists s' tr', analyze_with_claude E (VStr s) d rc tr = (Ok (VStr s'), tr').
Proof.
  apply analyze_with_claude_at_returns_text. lia.
Qed.

End TextContents.

(* ================================================================== *)
(** * Paths: base names and extensions *)
(* ================================================================== *)

Lemma str_eqb_eq (a b : pystr) : str_eqb a b = true <-> a = b.
Proof.
  revert b. induction a as [| x a IH]; intros [| y b]; cbn;
    try (split; [discriminate | discriminate]); [tauto |].
  rewrite andb_true_iff, code_eqb_eq, IH. split.
  - intros [-> ->]. reflexivity.
  - intros H. injection H as -> ->. auto.
Qed.

Lemma str_in_In (s : pystr) (set : list pystr) : str_in s set = true <-> In s set.
Proof.
  unfold str_in. rewrite existsb_exists. split.
  - intros [x [Hin Heq]]. apply str_eqb_eq in Heq. subst. exact Hin.
  - intros Hin. exists s. split; [exact Hin | apply str_eqb_eq; reflexivity].
Qed.

Lemma rfind_from_app (c : N) (a b : pystr) :
  forall pos found,
    rfind_from c (a ++ b) pos found
    = rfind_from c b (pos + len a) (rfind_from c a pos found).
Proof.
  induction a as [| x a IH]; intros pos found; cbn [app rfind_from].
  - unfold len. cbn. rewrite Z.add_0_r. reflexivity.
  - rewrite IH. f_equal. unfold len. cbn [List.length]. lia.
Qed.

Lemma rfind_from_absent (c : N) (s : pystr) :
  ~ In c s -> forall pos found, rfind_from c s pos found = found.
Proof.
  induction s as [| x s IH]; intros Hno pos found; [reflexivity |].
  cbn [rfind_from]. destruct (code_eqb x c) eqn:Hx.
  - apply code_eqb_eq in Hx. subst. exfalso. apply Hno. left. reflexivity.
  - apply IH. intros Hin. apply Hno. right. exact Hin.
Qed.

Lemma rfind_from_bounds (c : N) (s : pystr) :
  forall pos found,
    -1 <= found < pos ->
    -1 <= rfind_from c s pos found < pos + len s.
Proof.
  induction s as [| x s IH]; intros pos found H; cbn [rfind_from].
  - unfold len. cbn. lia.
  - unfold len in *. cbn [List.length].
    specialize (IH (pos + 1) (if code_eqb x c then pos else found)).
    destruct (code_eqb x c); lia.
Qed.

Lemma rfind_bounds (c : N) (s : pystr) : -1 <= rfind c s < len s.
Proof. apply (rfind_from_bounds c s 0 (-1)). lia. Qed.

Lemma rfind_absent (c : N) (s : pystr) : ~ In c s -> rfind c s = -1.
Proof. intros H. apply rfind_from_absent, H. Qed.

Lemma rfind_app_absent (c : N) (a b : pystr) :
  ~ In c b -> rfind c (a ++ b) = rfind c a.
Proof.
  intros H. unfold rfind. rewrite rfind_from_app. apply rfind_from_absent, H.
Qed.

Lemma rfind_last (c : N) (a b : pystr) :
  ~ In c b -> rfind c (a ++ c :: b) = len a.
Proof.
  intros H. unfold rfind. rewrite rfind_from_app. cbn [rfind_from].
  assert (Hc : code_eqb c c = true) by (apply code_eqb_eq; reflexivity).
  rewrite Hc. rewrite rfind_from_absent by exact H. lia.
Qed.

Lemma slice_from_skipn {A} (s : list A) (i : Z) :
  0 <= i <= Z.of_nat (List.length s) ->
  slice_from s i = skipn (Z.to_nat i) s.
Proof.
  intros H. unfold slice_from, adjust_index.
  destruct (Z.ltb_spec i 0); [lia |].
  rewrite Z.min_l by lia. reflexivity.
Qed.

Lemma basename_join (parent name : pystr) :
  ~ In 47%N name -> basename (parent ++ 47%N :: name) = name.
Proof.
  intros H. unfold basename. rewrite rfind_last by exact H.
  rewrite slice_from_skipn by (rewrite length_app; cbn [List.length]; unfold len; lia).
  replace (Z.to_nat (len parent + 1)) with (List.length (parent ++ [47%N]))
    by (rewrite length_app; unfold len; cbn; lia).
  change (parent ++ 47%N :: name) with (parent ++ [47%N] ++ name).
  rewrite app_assoc. apply skipn_suffix. reflexivity.
Qed.

Lemma basename_plain (name : pystr) : ~ In 47%N name -> basename name = name.
Proof.
  intros H. unfold basename. rewrite rfind_absent by exact H.
  rewrite slice_from_skipn by lia. reflexivity.
Qed.

(** X1.  [should_skip_directory] looks at the last path component only
    and wants an exact match: a directory [parent/name] is skipped exactly
    when [name] is an entry of the skip set, and so is a bare [name]; a
    path that ends with a slash has an empty base name and is not
    skipped. *)
Theorem should_skip_directory_exact (parent name : pystr) :
  ~ In 47%N name ->
  (should_skip_directory (parent ++ u "/" ++ name) = true <-> In name SKIP_DIRS) /\
  (should_skip_directory name = true <-> In name SKIP_DIRS) /\
  should_skip_directory (parent ++ u "/") = false.
Proof.
  intros H. change (u "/") with [47%N]. unfold should_skip_directory.
  split; [| split].
  - change (parent ++ [47%N] ++ name) with (parent ++ 47%N :: name).
    rewrite basename_join by exact H. apply str_in_In.
  - rewrite basename_plain by exact H. apply str_in_In.
  - rewrite (basename_join parent []) by (intros []). reflexivity.
Qed.

Lemma should_skip_directory_exact_witness :
  should_skip_directory (u "/srv/app" ++ u "/" ++ u ".git") = true /\
  ~ should_skip_directory (u "/srv/app" ++ u "/" ++ u "Vendor") = true.
Proof.
  destruct (should_skip_directory_exact (u "/srv/app") (u ".git")) as [H1 _].
  { vm_compute. intuition discriminate. }
  destruct (should_skip_directory_exact (u "/srv/app") (u "Vendor")) as [H2 _].
  { vm_compute. intuition discriminate. }
  split.
  - apply H1. vm_compute. tauto.
  - intros Hs. apply H2 in Hs. vm_compute in Hs. intuition discriminate.
Defined.

Lemma skipn_app_within {A} (a b : list A) (k : nat) :
  (k <= List.length a)%nat -> skipn k (a ++ b) = skipn k a ++ b.
Proof.
  intros H. rewrite skipn_app.
  replace (k - List.length a)%nat with 0%nat by lia. reflexivity.
Qed.

(** The split [splitext] makes at the last dot of the last component. *)
Lemma splitext_extension (pre stem e : pystr) :
  ~ In 47%N stem -> ~ In 47%N e -> ~ In 46%N e ->
  (exists c, In c stem /\ c <> 46%N) ->
  splitext (pre ++ stem ++ 46%N :: e) = (pre ++ stem, 46%N :: e).
Proof.
  intros Hstem He47 He46 [c [Hc Hdot]]. unfold splitext.
  assert (Hsep : rfind 47%N (pre ++ stem ++ 46%N :: e) = rfind 47%N pre).
  { apply rfind_app_absent. intros Hin. apply in_app_or in Hin.
    destruct Hin as [Hin | [Hin | Hin]]; [auto | discriminate | auto]. }
  assert (Hdotix : rfind 46%N (pre ++ stem ++ 46%N :: e) = len (pre ++ stem)).
  { rewrite app_assoc. apply rfind_last, He46. }
  rewrite Hsep, Hdotix. cbv zeta.
  pose proof (rfind_bounds 47%N pre) as Hb.
  set (k := rfind 47%N pre + 1) in *.
  assert (Hlen : len (pre ++ stem) = len pre + len stem) by apply len_app.
  assert (Hp : Z.of_nat (List.length (pre ++ stem ++ 46%N :: e))
               = len pre + len stem + 1 + len e).
  { rewrite !length_app. cbn [List.length]. unfold len. lia. }
  unfold len in *.
  destruct (Z.gtb_spec (Z.of_nat (List.length (pre ++ stem))) (rfind 47%N pre));
    [| lia].
  rewrite (slice_from_skipn _ k) by lia.
  rewrite skipn_app_within by lia.
  rewrite slice_to_firstn
    by (rewrite !length_app, length_skipn; cbn [List.length]; lia).
  rewrite app_assoc.
  rewrite firstn_prefix by (rewrite length_app, length_skipn; lia).
  assert (Hex : existsb (fun c0 => negb (code_eqb c0 46%N))
                        (skipn (Z.to_nat k) pre ++ stem) = true).
  { apply existsb_exists. exists c. split; [apply in_or_app; right; exact Hc |].
    destruct (code_eqb c 46%N) eqn:Hcd; [| reflexivity].
    apply code_eqb_eq in Hcd. contradiction. }
  rewrite Hex. cbn [andb].
  rewrite slice_to_firstn, slice_from_skipn by lia.
  rewrite Nat2Z.id, (app_assoc pre stem).
  rewrite firstn_prefix, skipn_suffix by reflexivity. reflexivity.
Qed.

(** X2.  Whether a file is analyzed depends only on what follows the last
    dot of its name, compared without regard to the case of the letters
    A-Z: a file [stem.e] is analyzed exactly when the lower-cased [.e] is
    one of the listed extensions. *)
Theorem should_analyze_file_extension (pre stem e : pystr) :
  ~ In 47%N stem -> ~ In 47%N e -> ~ In 46%N e ->
  (exists c, In c stem /\ c <> 46%N) ->
  (should_analyze_file (pre ++ stem ++ u "." ++ e) = true <->
   In (lower (u "." ++ e)) ANALYZE_EXTENSIONS).
Proof.
  intros Hstem He47 He46 Hc. change (u "." ++ e) with (46%N :: e).
  unfold should_analyze_file.
  rewrite splitext_extension by assumption. cbv zeta. cbn [snd].
  apply str_in_In.
Qed.

Lemma should_analyze_file_extension_witness :
  should_analyze_file (u "/srv/app/" ++ u "Main" ++ u "." ++ u "PY") = true /\
  ~ should_analyze_file (u "/srv/app/" ++ u "logo" ++ u "." ++ u "png") = true.
Proof.
  destruct (should_analyze_file_extension (u "/srv/app/") (u "Main") (u "PY")) as [_ H1].
  { vm_compute. intuition discriminate. }
  { vm_compute. intuition discriminate. }
  { vm_compute. intuition discriminate. }
  { exists 77%N. split; [vm_compute; tauto | discriminate]. }
  destruct (should_analyze_file_extension (u "/srv/app/") (u "logo") (u "png")) as [H2 _].
  { vm_compute. intuition discriminate. }
  { vm_compute. intuition discriminate. }
  { vm_compute. intuition discriminate. }
  { exists 108%N. split; [vm_compute; tauto | discriminate]. }
  split.
  - apply H1. vm_compute. tauto.
  - intros Hs. apply H2 in Hs. vm_compute in Hs. intuition discriminate.
Defined.

Lemma rfind_sep_of_dir (dir name : pystr) :
  (dir = [] \/ exists d, dir = d ++ [47%N]) -> ~ In 47%N name ->
  rfind 47%N (dir ++ name) + 1 = len dir.
Proof.
  intros [-> | [d ->]] Hname.
  - cbn [app]. rewrite rfind_absent by exact Hname. reflexivity.
  - rewrite <- app_assoc. cbn [app]. rewrite rfind_last by exact Hname.
    rewrite len_app. reflexivity.
Qed.

Lemma existsb_not_dot_repeat (k : nat) :
  existsb (fun c => negb (code_eqb c 46%N)) (repeat 46%N k) = false.
Proof. induction k as [| k IH]; [reflexivity | exact IH]. Qed.

Lemma splitext_no_extension (dir rest : pystr) (k : nat) :
  (dir = [] \/ exists d, dir = d ++ [47%N]) ->
  ~ In 47%N rest -> ~ In 46%N rest ->
  snd (splitext (dir ++ repeat 46%N k ++ rest)) = [].
Proof.
  intros Hdir H47 H46. unfold splitext.
  assert (Hname : ~ In 47%N (repeat 46%N k ++ rest)).
  { intros Hin. apply in_app_or in Hin. destruct Hin as [Hin | Hin]; [| auto].
    apply repeat_spec in Hin. discriminate. }
  pose proof (rfind_sep_of_dir dir _ Hdir Hname) as Hsep.
  set (sepIndex := rfind 47%N (dir ++ repeat 46%N k ++ rest)) in *.
  cbv zeta.
  destruct k as [| k].
  - cbn [repeat app].
    assert (Hd : rfind 46%N (dir ++ rest) = rfind 46%N dir)
      by (apply rfind_app_absent, H46).
    pose proof (rfind_bounds 46%N dir) as Hb.
    fold sepIndex.
    destruct (Z.gtb_spec (rfind 46%N (dir ++ rest)) sepIndex); [lia | reflexivity].
  - assert (Hshape : dir ++ repeat 46%N (S k) ++ rest
                     = (dir ++ repeat 46%N k) ++ 46%N :: rest).
    { cbn [repeat]. rewrite repeat_cons, <- !app_assoc. reflexivity. }
    assert (Hd : rfind 46%N (dir ++ repeat 46%N (S k) ++ rest)
                 = len dir + Z.of_nat k).
    { rewrite Hshape, rfind_last by exact H46.
      rewrite len_app. unfold len. rewrite repeat_length. reflexivity. }
    rewrite Hd.
    replace (len dir + Z.of_nat k - (sepIndex + 1)) with (Z.of_nat k) by lia.
    rewrite Hsep.
    assert (Hslice : slice_to (slice_from (dir ++ repeat 46%N (S k) ++ rest) (len dir))
                              (Z.of_nat k)
                     = repeat 46%N k).
    { rewrite slice_from_skipn by (rewrite length_app; unfold len; lia).
      unfold len. rewrite Nat2Z.id, skipn_suffix by reflexivity.
      rewrite slice_to_firstn
        by (rewrite length_app, repeat_length; lia).
      rewrite Nat2Z.id. cbn [repeat]. rewrite repeat_cons, <- app_assoc.
      apply firstn_prefix, repeat_length. }
    rewrite Hslice, existsb_not_dot_repeat, andb_false_r. reflexivity.
Qed.

(** X3.  A file whose name has no extension is never analyzed: neither a
    name without a dot, nor a name that only starts with dots, such as
    [.json] or [.gitignore]. *)
Theorem should_analyze_file_no_extension (dir rest : pystr) (k : nat) :
  (dir = [] \/ exists d, dir = d ++ u "/") ->
  ~ In 47%N rest -> ~ In 46%N rest ->
  should_analyze_file (dir ++ repeat 46%N k ++ rest) = false.
Proof.
  intros Hdir H47 H46. unfold should_analyze_file.
  rewrite splitext_no_extension by assumption. reflexivity.
Qed.

Lemma should_analyze_file_no_extension_witness :
  should_analyze_file (u "/srv/app/" ++ repeat 46%N 1 ++ u "json") = false /\
  should_analyze_file ([] ++ repeat 46%N 0 ++ u "Makefile") = false.
Proof.
  split.
  - apply should_analyze_file_no_extension.
    + right. exists (u "/srv/app"). vm_compute. reflexivity.
    + vm_compute. intuition discriminate.
    + vm_compute. intuition discriminate.
  - apply should_analyze_file_no_extension.
    + left. reflexivity.
    + vm_compute. intuition discriminate.
    + vm_compute. intuition discriminate.
Defined.

(* ================================================================== *)
(** * The truncator at any maximum length *)
(* ================================================================== *)

Lemma half_bounds (m : Z) : 2 <= m -> 0 < m / 2 /\ m - 1 <= 2 * (m / 2) <= m.
Proof.
  intros H. pose proof (Z.div_mod m 2 ltac:(lia)) as Hdm.
  pose proof (Z.mod_pos_bound m 2 ltac:(lia)) as Hmod.
  split; [apply Z.div_str_pos; lia | lia].
Qed.

Lemma ELISION_len15 : len ELISION = 15.
Proof. reflexivity. Qed.

(** X4.  For any maximum length of at least 2, text longer than the
    maximum comes back as its first and last [max_length // 2] code points
    around the marker.  The result has [2 * (max_length // 2) + 15] code
    points: always more than the maximum, by at most 15. *)
Theorem truncate_content_exceeds_max (s : pystr) (max_length : Z) :
  2 <= max_length < len s ->
  exists out,
    truncate_content (VStr s) max_length = Ok (VStr out) /\
    out = firstn (Z.to_nat (max_length / 2)) s ++ ELISION
          ++ skipn (List.length s - Z.to_nat (max_length / 2)) s /\
    len out = 2 * (max_length / 2) + 15 /\
    max_length < len out <= max_length + 15.
Proof.
  intros H. eexists. split; [apply truncate_content_long, H |].
  split; [reflexivity |].
  pose proof (truncate_content_long_len s max_length H) as Hlen.
  rewrite ELISION_len15 in Hlen.
  pose proof (half_bounds max_length ltac:(lia)) as Hhalf.
  split; [exact Hlen | lia].
Qed.

Lemma truncate_content_exceeds_max_witness :
  exists out,
    truncate_content (VStr (u "abcdefghijklmnopqrstuvwxyz")) 7 = Ok (VStr out) /\
    len out = 21.
Proof.
  destruct (truncate_content_exceeds_max (u "abcdefghijklmnopqrstuvwxyz") 7)
    as [out [Hrun [_ [Hlen _]]]].
  - vm_compute. split; [discriminate | reflexivity].
  - exists out. split; [exact Hrun | exact Hlen].
Defined.

(** X5.  Truncating twice gives what truncating once gives, for every
    text and every maximum length of at least 2. *)
Theorem truncate_content_twice (s : pystr) (max_length : Z) :
  2 <= max_length ->
  exists out,
    truncate_content (VStr s) max_length = Ok (VStr out) /\
    truncate_content (VStr out) max_length = Ok (VStr out).
Proof.
  intros Hm. destruct (Z.le_gt_cases (len s) max_length) as [Hs | Hs].
  - exists s. rewrite truncate_content_short by exact Hs. split; reflexivity.
  - assert (H : 2 <= max_length < len s) by lia.
    eexists. split; [apply truncate_content_long, H |].
    pose proof (truncate_content_long_len s max_length H) as Hlen.
    rewrite ELISION_len15 in Hlen.
    pose proof (half_bounds max_length Hm) as Hhalf.
    set (h := Z.to_nat (max_length / 2)) in *.
    assert (Hhead : List.length (firstn h s) = h)
      by (rewrite length_firstn; unfold len in Hs; lia).
    assert (Htail : List.length (skipn (List.length s - h) s) = h)
      by (rewrite length_skipn; unfold len in Hs; lia).
    set (head := firstn h s) in *.
    set (tail := skipn (List.length s - h) s) in *.
    rewrite truncate_content_long by lia.
    fold h.
    rewrite (firstn_prefix head (ELISION ++ tail)) by exact Hhead.
    rewrite (app_assoc head ELISION tail).
    rewrite skipn_last by exact Htail.
    rewrite <- app_assoc. reflexivity.
Qed.

Lemma truncate_content_twice_witness :
  exists out,
    truncate_content (VStr (u "abcdefghijklmnopqrstuvwxyz")) 7 = Ok (VStr out) /\
    truncate_content (VStr out) 7 = Ok (VStr out).
Proof.
  apply truncate_content_twice. vm_compute. discriminate.
Defined.

Lemma truncate_content_keeps_all (s : pystr) (max_length : Z) :
  0 <= max_length <= 1 -> max_length < len s ->
  truncate_content (VStr s) max_length = Ok (VStr (ELISION ++ s)).
Proof.
  intros Hm Hs. unfold truncate_content. cbn [py_len rbind].
  destruct (Z.leb_spec (len s) max_length); [lia |].
  rewrite (Z.div_small max_length 2) by lia.
  unfold len in Hs.
  rewrite slice_to_firstn by lia.
  change (- 0) with 0. rewrite slice_from_skipn by lia. reflexivity.
Qed.

(** X6.  With a maximum length of 0 or 1 nothing is cut: text longer
    than the maximum comes back whole, with the marker in front, and each
    further truncation puts one more marker in front. *)
Theorem truncate_content_tiny_max (s : pystr) (max_length : Z) :
  0 <= max_length <= 1 -> max_length < len s ->
  truncate_content (VStr s) max_length = Ok (VStr (ELISION ++ s)) /\
  truncate_content (VStr (ELISION ++ s)) max_length
  = Ok (VStr (ELISION ++ ELISION ++ s)).
Proof.
  intros Hm Hs. split; [apply truncate_content_keeps_all; assumption |].
  apply truncate_content_keeps_all; [exact Hm |].
  rewrite len_app, ELISION_len15. lia.
Qed.

Lemma truncate_content_tiny_max_witness :
  truncate_content (VStr (u "abc")) 1 = Ok (VStr (ELISION ++ u "abc")) /\
  truncate_content (VStr (ELISION ++ u "abc")) 1
  = Ok (VStr (ELISION ++ ELISION ++ u "abc")).
Proof.
  apply truncate_content_tiny_max.
  - vm_compute. split; discriminate.
  - vm_compute. reflexivity.
Defined.

(* ================================================================== *)
(** * The analysis client: the other answers *)
(* ================================================================== *)

Lemma api_error_text_unfold (status : Z) (text : pystr) :
  api_error_text status text
  = u "API错误 (HTTP " ++ str_of_int status ++ u "): " ++ text.
Proof. reflexivity. Qed.

(** X7.  A status other than 200 and 429 is never retried: whatever
    [retry_count] is, the call sends one request, does not sleep, and
    returns the API-error text with the status and the body as received. *)
Theorem api_error_not_retried (E : Env) (s d : pystr) (rc : Z) (tr : trace) :
  exists req,
    forall status text,
      http_post E tr req = Response status text ->
      status <> 200 -> status <> 429 ->
      analyze_with_claude E (VStr s) d rc tr
      = (Ok (VStr (u "API错误 (HTTP " ++ str_of_int status ++ u "): " ++ text)),
         tr ++ [EvPost req]).
Proof.
  destruct (truncate_content_text s MAX_CONTENT_LENGTH) as [t Ht].
  exists (request_of E (VStr t)). intros status text Hp H200 H429.
  rewrite (attempt_api_error E (VStr s) d rc tr (VStr t) status text Ht Hp H200 H429).
  rewrite api_error_text_unfold. reflexivity.
Qed.

Lemma api_error_not_retried_witness :
  exists req,
    analyze_with_claude Worlds.broken (VStr (u "print(1)")) (u ".") 0 []
    = (Ok (VStr (u "API错误 (HTTP " ++ str_of_int 500 ++ u "): " ++ Sample.body_html)),
       [] ++ [EvPost req]).
Proof.
  destruct (api_error_not_retried Worlds.broken (u "print(1)") (u ".") 0 [])
    as [req H].
  exists req. apply H; [reflexivity | discriminate | discriminate].
Defined.

(** X8.  A 200 answer whose body decodes and holds text at
    [choices[0].message.content] ends the call at once: one request, no
    sleep, and the content is returned as it is, even when it is empty. *)
Theorem success_returns_content (E : Env) (s d : pystr) (rc : Z) (tr : trace) :
  exists req,
    forall text result c,
      http_post E tr req = Response 200 text ->
      loads E text = Ok result ->
      message_content result = Ok (VStr c) ->
      analyze_with_claude E (VStr s) d rc tr = (Ok (VStr c), tr ++ [EvPost req]).
Proof.
  destruct (truncate_content_text s MAX_CONTENT_LENGTH) as [t Ht].
  exists (request_of E (VStr t)). intros text result c Hp Hl Hm.
  apply (attempt_success E (VStr s) d rc tr (VStr t) text result (VStr c) (len c));
    try assumption.
  reflexivity.
Qed.

Lemma success_returns_content_witness :
  exists req,
    analyze_with_claude Worlds.helpful (VStr (u "print(1)")) (u ".") 3 []
    = (Ok (VStr Sample.report), [] ++ [EvPost req]).
Proof.
  destruct (success_returns_content Worlds.helpful (u "print(1)") (u ".") 3 [])
    as [req H].
  exists req.
  apply (H Sample.body_report (Sample.choices_with (VStr Sample.report))).
  - reflexivity.
  - vm_compute. reflexivity.
  - vm_compute. reflexivity.
Defined.

Section TransportErrors.

Variable E : Env.

Hypothesis always_raises :
  forall tr req, exists e, http_post E tr req = HttpRaise e.

Lemma transport_errors_run content d t (n : nat) :
  truncate_content content MAX_CONTENT_LENGTH = Ok t ->
  forall rc tr,
    rc = MAX_RETRIES - Z.of_nat n ->
    exists e history,
      analyze_with_claude E content d rc tr
      = (Ok (VStr (if is_client_error e then network_error_text MAX_RETRIES e
                   else unexpected_error_text MAX_RETRIES e)),
         history ++ [EvPost (request_of E t)]) /\
      history ++ [EvPost (request_of E t)]
      = tr ++ EvPost (request_of E t) :: backoff (request_of E t) rc n /\
      http_post E history (request_of E t) = HttpRaise e.
Proof.
  intros Ht. induction n as [| n IH]; intros rc tr Hrc.
  - destruct (always_raises tr (request_of E t)) as [e He].
    exists e, tr.
    rewrite (attempt_transport_error E content d rc tr t e Ht He).
    rewrite on_exception_give_up by lia.
    replace rc with MAX_RETRIES by (cbn in Hrc; lia).
    split; [reflexivity | split; [reflexivity | exact He]].
  - destruct (always_raises tr (request_of E t)) as [e0 He0].
    rewrite (attempt_transport_error E content d rc tr t e0 Ht He0).
    rewrite on_exception_retry by lia.
    destruct (IH (rc + 1)
                 ((tr ++ [EvPost (request_of E t)])
                    ++ [EvSleep (RETRY_DELAY * (rc + 1))])
                 ltac:(lia))
      as [e [history [Hrun [Hhist Hlast]]]].
    exists e, history. rewrite Hrun.
    split; [reflexivity |]. split; [| exact Hlast].
    rewrite Hhist, <- !app_assoc. reflexivity.
Qed.

End TransportErrors.

(** X9.  When every request fails with an exception, a call started with
    [retry_count = 0] sends the request six times, sleeps 5, 10, 15, 20
    and 25 seconds in between, and returns a failure text that names five
    retries and the last exception: the network-error text for an
    [aiohttp.ClientError], the plain error text for any other exception. *)
Theorem transport_errors_six_attempts (E : Env) (s d : pystr) (tr : trace) :
  (forall tr' req, exists e, http_post E tr' req = HttpRaise e) ->
  exists req e history,
    analyze_with_claude E (VStr s) d 0 tr
    = (Ok (VStr (if is_client_error e then network_error_text 5 e
                 else unexpected_error_text 5 e)),
       history ++ [EvPost req]) /\
    history
    = tr ++ [ EvPost req; EvSleep 5; EvPost req; EvSleep 10; EvPost req;
              EvSleep 15; EvPost req; EvSleep 20; EvPost req; EvSleep 25 ] /\
    http_post E history req = HttpRaise e.
Proof.
  intros Hraise.
  destruct (truncate_content_text s MAX_CONTENT_LENGTH) as [t Ht].
  destruct (transport_errors_run E Hraise (VStr s) d (VStr t) 5 Ht 0 tr eq_refl)
    as [e [history [Hrun [Hhist Hlast]]]].
  revert Hrun Hhist Hlast. generalize (request_of E (VStr t)) as req.
  intros req Hrun Hhist Hlast.
  exists req, e, history.
  split; [exact Hrun |]. split; [| exact Hlast].
  apply (app_inv_tail [EvPost req]).
  rewrite Hhist, <- app_assoc. reflexivity.
Qed.

Lemma transport_errors_six_attempts_witness :
  exists req history,
    analyze_with_claude Worlds.offline (VStr (u "print(1)")) (u ".") 0 []
    = (Ok (VStr (network_error_text 5 Worlds.connection_refused)),
       history ++ [EvPost req]) /\
    sleeps history = [5; 10; 15; 20; 25].
Proof.
  destruct (transport_errors_six_attempts Worlds.offline (u "print(1)") (u ".") [])
    as [req [e [history [Hrun [Hh Hlast]]]]].
  - intros tr' req. exists Worlds.connection_refused. reflexivity.
  - exists req, history.
    assert (He : e = Worlds.connection_refused)
      by (cbn in Hlast; injection Hlast as <-; reflexivity).
    subst e. split; [exact Hrun |].
    rewrite Hh. reflexivity.
Defined.

(** X11.  With the retry budget used up ([retry_count >= MAX_RETRIES]) a
    call on text sends exactly one request, never sleeps and never raises,
    whatever the endpoint does. *)
Theorem exhausted_budget_single_request (E : Env) (s d : pystr) (rc : Z) (tr : trace) :
  MAX_RETRIES <= rc ->
  exists req value,
    analyze_with_claude E (VStr s) d rc tr = (Ok value, tr ++ [EvPost req]).
Proof.
  intros Hrc. destruct (truncate_content_text s MAX_CONTENT_LENGTH) as [t Ht].
  exists (request_of E (VStr t)).
  destruct (http_post E tr (request_of E (VStr t))) as [status text | e] eqn:Hp.
  - destruct (Z.eq_dec status 200) as [-> | H200].
    + destruct (loads E text) as [result | e] eqn:Hl.
      * destruct (message_content result) as [value | e] eqn:Hm.
        -- destruct (py_len value) as [n | e] eqn:Hn.
           ++ eexists. eapply attempt_success; eassumption.
           ++ eexists.
              rewrite (attempt_content_without_len
                         E (VStr s) d rc tr (VStr t) text result value e)
                by assumption.
              apply on_exception_give_up, Hrc.
        -- eexists.
           rewrite (attempt_no_content E (VStr s) d rc tr (VStr t) text result e)
             by assumption.
           apply on_exception_give_up, Hrc.
      * eexists.
        rewrite (attempt_undecodable E (VStr s) d rc tr (VStr t) text e)
          by assumption.
        apply on_exception_give_up, Hrc.
    + destruct (Z.eq_dec status 429) as [-> | H429].
      * eexists. eapply attempt_rate_limited_last; eassumption.
      * eexists. eapply attempt_api_error; eassumption.
  - eexists.
    rewrite (attempt_transport_error E (VStr s) d rc tr (VStr t) e) by assumption.
    apply on_exception_give_up, Hrc.
Qed.

Lemma exhausted_budget_single_request_witness :
  exists req value,
    analyze_with_claude Sample.world_null (VStr (u "print(1)")) (u ".") 5 []
    = (Ok value, [] ++ [EvPost req]).
Proof.
  apply exhausted_budget_single_request. vm_compute. discriminate.
Defined.

(* ================================================================== *)
(** * The back-off schedule where contents are text *)
(* ================================================================== *)

Lemma posts_backoff (req : request) (n : nat) :
  forall rc, List.length (posts (backoff req rc n)) = n.
Proof.
  induction n as [| n IH]; intros rc; [reflexivity |].
  cbn. rewrite IH. reflexivity.
Qed.

Lemma sleeps_backoff (req : request) (n : nat) :
  forall rc,
    sleeps (backoff req rc n)
    = map (fun i => RETRY_DELAY * (rc + 1 + Z.of_nat i)) (seq 0 n).
Proof.
  induction n as [| n IH]; intros rc; [reflexivity |].
  cbn [backoff sleeps seq map]. rewrite IH, <- seq_shift, map_map.
  f_equal; [f_equal; lia |].
  apply map_ext. intros i. f_equal. lia.
Qed.

Lemma writes_backoff (req : request) (n : nat) :
  forall rc, writes (backoff req rc n) = [].
Proof.
  induction n as [| n IH]; intros rc; [reflexivity |]. cbn. apply IH.
Qed.

Section TextWorld.

Variable E : Env.

Hypothesis text_contents :
  forall tr req text result value,
    http_post E tr req = Response 200 text ->
    loads E text = Ok result ->
    message_content result = Ok value ->
    exists c, value = VStr c.

Variables (s d t : pystr).

Hypothesis truncated : truncate_content (VStr s) MAX_CONTENT_LENGTH = Ok (VStr t).

Lemma scheduled_after_exception rc e tr :
  (rc < MAX_RETRIES -> scheduled E s d t (rc + 1)) ->
  exists n answer,
    (n <= Z.to_nat (MAX_RETRIES - rc))%nat /\
    on_exception (fun c => analyze_with_claude E c d (rc + 1)) rc (VStr s) e
                 (tr ++ [EvPost (request_of E (VStr t))])
    = (Ok (VStr answer),
       tr ++ EvPost (request_of E (VStr t)) :: backoff (request_of E (VStr t)) rc n).
Proof.
  intros Hnext. destruct (Z.lt_ge_cases rc MAX_RETRIES) as [Hlt | Hge].
  - rewrite on_exception_retry by exact Hlt.
    destruct (Hnext Hlt ((tr ++ [EvPost (request_of E (VStr t))])
                           ++ [EvSleep (RETRY_DELAY * (rc + 1))]))
      as [n [answer [Hn Hrun]]].
    exists (S n), answer. split; [lia |].
    rewrite Hrun, <- !app_assoc. reflexivity.
  - rewrite on_exception_give_up by exact Hge.
    exists 0%nat. eexists. split; [lia | reflexivity].
Qed.

Lemma scheduled_step rc : (rc < MAX_RETRIES -> scheduled E s d t (rc + 1)) -> scheduled E s d t rc.
Proof.
  intros Hnext tr.
  destruct (http_post E tr (request_of E (VStr t))) as [status text | e] eqn:Hp.
  - destruct (Z.eq_dec status 200) as [-> | H200].
    + destruct (loads E text) as [result | e] eqn:Hl.
      * destruct (message_content result) as [value | e] eqn:Hm.
        -- destruct (text_contents _ _ _ _ _ Hp Hl Hm) as [c ->].
           exists 0%nat, c. split; [lia |].
           apply (attempt_success E (VStr s) d rc tr (VStr t) text result (VStr c)
                                  (len c)); try assumption.
           reflexivity.
        -- rewrite (attempt_no_content E (VStr s) d rc tr (VStr t) text result e)
             by assumption.
           apply scheduled_after_exception, Hnext.
      * rewrite (attempt_undecodable E (VStr s) d rc tr (VStr t) text e)
          by assumption.
        apply scheduled_after_exception, Hnext.
    + destruct (Z.eq_dec status 429) as [-> | H429].
      * destruct (Z.lt_ge_cases rc MAX_RETRIES) as [Hlt | Hge].
        -- rewrite (attempt_rate_limited E (VStr s) d rc tr (VStr t) text)
             by assumption.
           destruct (Hnext Hlt (tr ++ [EvPost (request_of E (VStr t))]
                                   ++ [EvSleep (RETRY_DELAY * (rc + 1))]))
             as [n [answer [Hn Hrun]]].
           exists (S n), answer. split; [lia |].
           unfold guarded. rewrite Hrun, <- !app_assoc. reflexivity.
        -- exists 0%nat. eexists. split; [lia |].
           eapply attempt_rate_limited_last; eassumption.
      * exists 0%nat. eexists. split; [lia |].
        eapply attempt_api_error; eassumption.
  - rewrite (attempt_transport_error E (VStr s) d rc tr (VStr t) e) by assumption.
    apply scheduled_after_exception, Hnext.
Qed.

Lemma scheduled_all (k : nat) : forall rc, Z.to_nat (MAX_RETRIES - rc) = k -> scheduled E s d t rc.
Proof.
  induction k as [| k IH]; intros rc Hk; apply scheduled_step; intros Hlt.
  - lia.
  - apply IH. lia.
Qed.

End TextWorld.

(** X10.  Where every decoded message content is text, any mixture of
    rate limits, transport failures and malformed bodies leads to the same
    schedule: the request, then [n] times a sleep of
    [RETRY_DELAY * (retry_count + 1)] seconds followed by the same
    request, with [n] at most the budget that is left, and text as the
    result. *)
Theorem linear_backoff_schedule (E : Env) (s d : pystr) (rc : Z) (tr : trace) :
  (forall tr' req text result value,
     http_post E tr' req = Response 200 text ->
     loads E text = Ok result ->
     message_content result = Ok value ->
     exists c, value = VStr c) ->
  exists req n answer,
    analyze_with_claude E (VStr s) d rc tr
    = (Ok (VStr answer), tr ++ EvPost req :: backoff req rc n) /\
    (n <= Z.to_nat (MAX_RETRIES - rc))%nat /\
    List.length (posts (EvPost req :: backoff req rc n)) = S n /\
    sleeps (EvPost req :: backoff req rc n)
    = map (fun i => RETRY_DELAY * (rc + 1 + Z.of_nat i)) (seq 0 n).
Proof.
  intros Htext. destruct (truncate_content_text s MAX_CONTENT_LENGTH) as [t Ht].
  destruct (scheduled_all E Htext s d t Ht _ rc eq_refl tr) as [n [answer [Hn Hrun]]].
  exists (request_of E (VStr t)), n, answer.
  split; [exact Hrun |]. split; [exact Hn |]. split.
  - cbn. rewrite posts_backoff. reflexivity.
  - cbn [sleeps]. apply sleeps_backoff.
Qed.

Lemma html_then_report_text_contents :
  forall tr req text result value,
    http_post Sample.world_html_then_report tr req = Response 200 text ->
    loads Sample.world_html_then_report text = Ok result ->
    message_content result = Ok value ->
    exists c, value = VStr c.
Proof.
  intros tr req text result value Hp Hl Hm.
  cbn in Hp. unfold Sample.in_turn in Hp.
  destruct (List.length (posts tr)) as [| [| k]]; cbn in Hp; injection Hp as <-.
  - vm_compute in Hl. discriminate.
  - vm_compute in Hl. injection Hl as <-. vm_compute in Hm. injection Hm as <-. eauto.
  - vm_compute in Hl. injection Hl as <-. vm_compute in Hm. injection Hm as <-. eauto.
Qed.

Lemma linear_backoff_schedule_witness :
  exists req n answer,
    analyze_with_claude Sample.world_html_then_report (VStr (u "print(1)")) (u ".") 3 []
    = (Ok (VStr answer), [] ++ EvPost req :: backoff req 3 n) /\
    (n <= 2)%nat.
Proof.
  destruct (linear_backoff_schedule
              Sample.world_html_then_report (u "print(1)") (u ".") 3 []
              html_then_report_text_contents)
    as [req [n [answer [Hrun [Hn _]]]]].
  exists req, n, answer. split; [exact Hrun | exact Hn].
Defined.

(* ================================================================== *)
(** * The directory analyzer: the other paths *)
(* ================================================================== *)

Lemma filter_none {A} (f : A -> bool) (l : list A) :
  (forall x, In x l -> f x = false) -> filter f l = [].
Proof.
  induction l as [| x l IH]; intros H; [reflexivity |].
  cbn. rewrite (H x) by (left; reflexivity).
  apply IH. intros y Hy. apply H. right. exact Hy.
Qed.

(** X12.  A directory without a file of an analyzable extension is left
    alone: nothing is sent, nothing is written and the call returns
    normally.  A directory that cannot be listed is not handled: the
    exception of [os.listdir] leaves [analyze_single_directory]. *)
Theorem directory_without_eligible_files (E : Env) (directory base_dir : pystr)
        (tr : trace) :
  (forall items,
     os_listdir E directory = Ok items ->
     (forall item,
        In item items ->
        os_isfile E (path_join directory item) = false \/
        should_analyze_file (path_join directory item) = false) ->
     analyze_single_directory E directory base_dir tr = (Ok tt, tr)) /\
  (forall e,
     should_skip_directory directory = false ->
     os_listdir E directory = Raise e ->
     analyze_single_directory E directory base_dir tr = (Raise e, tr)).
Proof.
  split.
  - intros items Hlist Hnone. unfold analyze_single_directory.
    destruct (should_skip_directory directory); [reflexivity |].
    unfold bind at 1, lift at 1. rewrite Hlist.
    unfold eligible_files. rewrite filter_none; [reflexivity |].
    intros full_path Hin. apply in_map_iff in Hin. destruct Hin as [item [<- Hin]].
    destruct (Hnone item Hin) as [H | H]; rewrite H;
      [reflexivity | apply andb_false_r].
  - intros e Hskip Hlist. unfold analyze_single_directory.
    rewrite Hskip. unfold bind, lift. rewrite Hlist. reflexivity.
Qed.

Section DirectoryRuns.

Variable E : Env.

Variables (directory base_dir : pystr) (items : list pystr).

Hypothesis not_skipped : should_skip_directory directory = false.
Hypothesis listed : os_listdir E directory = Ok items.
Hypothesis some_file : eligible_files E directory items <> [].

(** X13.  When the first answer is a well-formed report that passes the
    validator, the run is one request followed by the opening of the
    report file of the directory.  Where the content of the answer can
    be encoded as UTF-8 the file holds exactly that content and the run
    returns normally; where it cannot (it holds a surrogate) the file is
    left empty and the [UnicodeEncodeError] leaves
    [analyze_single_directory]. *)
Theorem first_valid_report_saved (tr : trace) :
  exists req,
    forall text result c,
      http_post E tr req = Response 200 text ->
      loads E text = Ok result ->
      message_content result = Ok (VStr c) ->
      verify_markdown (VStr c) = Ok true ->
      open_for_write
        E (report_path directory (now_strftime E (tr ++ [EvPost req]))) = Ok tt ->
      (utf8_encodable c = true ->
       analyze_single_directory E directory base_dir tr
       = (Ok tt,
          tr ++ [ EvPost req;
                  EvWrite (report_path directory (now_strftime E (tr ++ [EvPost req])))
                          c ])) /\
      (forall e,
         utf8_encode_error c = Some e ->
         analyze_single_directory E directory base_dir tr
         = (Raise e,
            tr ++ [ EvPost req;
                    EvWrite (report_path directory
                                         (now_strftime E (tr ++ [EvPost req])))
                            [] ])).
Proof.
  rewrite (analyze_single_directory_run E directory base_dir items tr
                                        not_skipped listed some_file).
  set (full_content := join nl _).
  destruct (truncate_content_text full_content MAX_CONTENT_LENGTH) as [t Ht].
  exists (request_of E (VStr t)). intros text result c Hp Hl Hm Hv Hopen.
  unfold bind.
  rewrite (attempt_success E (VStr full_content) _ 0 tr (VStr t) text result (VStr c)
                           (len c) Ht Hp Hl Hm eq_refl).
  change (Z.to_nat MAX_RETRIES) with 5%nat.
  rewrite validation_loop_accepts by exact Hv.
  split.
  - intros Henc. rewrite save_report_text by assumption.
    rewrite <- app_assoc. reflexivity.
  - intros e Henc. rewrite (save_report_not_encodable E directory c e) by assumption.
    rewrite <- app_assoc. reflexivity.
Qed.

(** X17.  When the content of a well-formed answer is a non-empty array
    or object, the client returns it and the validator fails on
    [content.strip()]: the [AttributeError] leaves
    [analyze_single_directory] after one request. *)
Theorem non_text_report_raises (tr : trace) :
  exists req,
    forall text result value n,
      http_post E tr req = Response 200 text ->
      loads E text = Ok result ->
      message_content result = Ok value ->
      py_len value = Ok n ->
      truthy value = true ->
      (forall c, value <> VStr c) ->
      analyze_single_directory E directory base_dir tr
      = (Raise (no_attribute value (u "strip")), tr ++ [EvPost req]).
Proof.
  rewrite (analyze_single_directory_run E directory base_dir items tr
                                        not_skipped listed some_file).
  set (full_content := join nl _).
  destruct (truncate_content_text full_content MAX_CONTENT_LENGTH) as [t Ht].
  exists (request_of E (VStr t)). intros text result value n Hp Hl Hm Hn Htruthy Hnot.
  unfold bind at 1.
  rewrite (attempt_success E (VStr full_content) _ 0 tr (VStr t) text result value n
                           Ht Hp Hl Hm Hn).
  change (Z.to_nat MAX_RETRIES) with 5%nat. cbn [validation_loop].
  change (negb (0 <? MAX_RETRIES)) with false. cbv iota.
  unfold bind, lift, verify_markdown. rewrite Htruthy. cbn [negb].
  destruct value; try reflexivity. exfalso. eapply Hnot. reflexivity.
Qed.

(** Every call of the client on the bundle has the effects [call] and
    returns an analysis that the validator rejects. *)
Variable call : trace.

Hypothesis always_rejected :
  forall tr,
    exists analysis,
      analyze_with_claude
        E (VStr (join nl (map (fun file_path =>
                                 file_part (os_relpath E file_path directory)
                                           (file_text E file_path))
                              (eligible_files E directory items))))
        (os_relpath E directory base_dir) 0 tr
      = (Ok analysis, tr ++ call) /\
      verify_markdown analysis = Ok false.

Lemma validation_loop_all_rejected (n : nat) :
  forall rounds rc analysis tr,
    rc = MAX_RETRIES - 1 - Z.of_nat n ->
    (n < rounds)%nat ->
    verify_markdown analysis = Ok false ->
    validation_loop
      E rounds directory
      (join nl (map (fun file_path =>
                       file_part (os_relpath E file_path directory)
                                 (file_text E file_path))
                    (eligible_files E directory items)))
      (os_relpath E directory base_dir) rc analysis tr
    = (Ok tt, tr ++ validation_rounds call rc n).
Proof.
  induction n as [| n IH]; intros rounds rc analysis tr Hrc Hrounds Hv;
    (destruct rounds as [| rounds]; [lia |]); cbn [validation_loop].
  - destruct (Z.ltb_spec rc MAX_RETRIES); [| lia]. cbn [negb].
    unfold bind, lift. rewrite Hv.
    destruct (Z.ltb_spec (rc + 1) MAX_RETRIES); [lia |].
    cbn [validation_rounds]. rewrite app_nil_r.
    destruct rounds; cbn [validation_loop];
      (destruct (Z.ltb_spec (rc + 1) MAX_RETRIES); [lia | reflexivity]).
  - destruct (Z.ltb_spec rc MAX_RETRIES); [| lia]. cbn [negb].
    unfold bind at 1, lift. rewrite Hv.
    destruct (Z.ltb_spec (rc + 1) MAX_RETRIES); [| lia].
    unfold bind, sleep, emit.
    destruct (always_rejected (tr ++ [EvSleep (RETRY_DELAY * (rc + 1))]))
      as [analysis' [Hrun Hv']].
    rewrite Hrun.
    rewrite (IH rounds (rc + 1) analysis' _ ltac:(lia) ltac:(lia) Hv').
    cbn [validation_rounds]. rewrite <- !app_assoc. reflexivity.
Qed.

Lemma all_rejected_run (tr : trace) :
  analyze_single_directory E directory base_dir tr
  = (Ok tt, tr ++ call ++ validation_rounds call 0 4).
Proof.
  rewrite (analyze_single_directory_run E directory base_dir items tr
                                        not_skipped listed some_file).
  unfold bind. destruct (always_rejected tr) as [analysis [Hrun Hv]].
  rewrite Hrun. change (Z.to_nat MAX_RETRIES) with 5%nat.
  rewrite (validation_loop_all_rejected 4 5 0 analysis _ eq_refl ltac:(lia) Hv).
  rewrite <- app_assoc. reflexivity.
Qed.

End DirectoryRuns.

Lemma directory_without_eligible_files_witness :
  analyze_single_directory (Worlds.with_assets Worlds.helpful)
                           (u "proj/assets") (u "proj") []
  = (Ok tt, []).
Proof.
  apply (proj1 (directory_without_eligible_files
                  (Worlds.with_assets Worlds.helpful) (u "proj/assets") (u "proj") [])
               [u "logo.png"; u "LICENSE"; u "icons.js"]).
  - vm_compute. reflexivity.
  - intros item [<- | [<- | [<- | []]]]; vm_compute; auto.
Defined.

Lemma first_valid_report_saved_witness :
  (exists req,
     analyze_single_directory Worlds.helpful (u "proj") (u "proj") []
     = (Ok tt,
        [] ++ [ EvPost req;
                EvWrite (report_path (u "proj") (u "20240101_120000")) Sample.report ])) /\
  (exists req e,
     analyze_single_directory Worlds.half_emoji (u "proj") (u "proj") []
     = (Raise e,
        [] ++ [ EvPost req; EvWrite (report_path (u "proj") (u "20240101_120000")) [] ]) /\
     exn_class e = UnicodeEncodeError).
Proof.
  split.
  - destruct (first_valid_report_saved
                Worlds.helpful (u "proj") (u "proj")
                [u "a.py"; u "logo.png"; u "b.py"; u "venv"]) with (tr := @nil event)
      as [req H].
    + vm_compute. reflexivity.
    + vm_compute. reflexivity.
    + vm_compute. discriminate.
    + exists req.
      destruct (H Sample.body_report (Sample.choices_with (VStr Sample.report))
                  Sample.report) as [Hsaved _].
      * reflexivity.
      * vm_compute. reflexivity.
      * vm_compute. reflexivity.
      * vm_compute. reflexivity.
      * reflexivity.
      * apply Hsaved. vm_compute. reflexivity.
  - destruct (first_valid_report_saved
                Worlds.half_emoji (u "proj") (u "proj")
                [u "a.py"; u "logo.png"; u "b.py"; u "venv"]) with (tr := @nil event)
      as [req H].
    + vm_compute. reflexivity.
    + vm_compute. reflexivity.
    + vm_compute. discriminate.
    + exists req, (mkExn UnicodeEncodeError (encode_error_text 0xD83D 127 127)).
      split; [| reflexivity].
      destruct (H Worlds.body_half_emoji
                  (Sample.choices_with (VStr Worlds.report_half_emoji))
                  Worlds.report_half_emoji) as [_ Hempty].
      * reflexivity.
      * vm_compute. reflexivity.
      * vm_compute. reflexivity.
      * vm_compute. reflexivity.
      * reflexivity.
      * apply Hempty. vm_compute. reflexivity.
Defined.

Lemma non_text_report_raises_witness :
  exists req,
    analyze_single_directory Sample.world_array (u "proj") (u "proj") []
    = (Raise (no_attribute (VList [VStr (u "ok")]) (u "strip")), [] ++ [EvPost req]).
Proof.
  destruct (non_text_report_raises
              Sample.world_array (u "proj") (u "proj")
              [u "a.py"; u "logo.png"; u "b.py"; u "venv"]) with (tr := @nil event)
    as [req H].
  - vm_compute. reflexivity.
  - vm_compute. reflexivity.
  - vm_compute. discriminate.
  - exists req.
    apply (H Sample.body_array (Sample.choices_with (VList [VStr (u "ok")])) _ 1).
    + reflexivity.
    + vm_compute. reflexivity.
    + vm_compute. reflexivity.
    + reflexivity.
    + reflexivity.
    + intros c. discriminate.
Defined.

(** X15.  When every answer is an API error whose text the validator
    rejects, the directory analyzer calls the client [MAX_RETRIES = 5]
    times in all, sleeping 5, 10, 15 and 20 seconds between the calls,
    writes nothing and returns normally. *)
Theorem api_errors_five_calls (E : Env) (directory base_dir : pystr)
        (items : list pystr) (status : Z) (tr : trace) :
  should_skip_directory directory = false ->
  os_listdir E directory = Ok items ->
  eligible_files E directory items <> [] ->
  status <> 200 -> status <> 429 ->
  (forall tr' req,
     exists body,
       http_post E tr' req = Response status body /\
       verify_markdown (VStr (api_error_text status body)) = Ok false) ->
  exists req,
    analyze_single_directory E directory base_dir tr
    = (Ok tt,
       tr ++ [ EvPost req; EvSleep 5; EvPost req; EvSleep 10; EvPost req;
               EvSleep 15; EvPost req; EvSleep 20; EvPost req ]).
Proof.
  intros Hskip Hlist Hfiles H200 H429 Hworld.
  set (full_content :=
         join nl (map (fun file_path =>
                         file_part (os_relpath E file_path directory)
                                   (file_text E file_path))
                      (eligible_files E directory items))).
  destruct (truncate_content_text full_content MAX_CONTENT_LENGTH) as [t Ht].
  exists (request_of E (VStr t)).
  rewrite (all_rejected_run E directory base_dir items Hskip Hlist Hfiles
                            [EvPost (request_of E (VStr t))]).
  - reflexivity.
  - intros tr0. destruct (Hworld tr0 (request_of E (VStr t))) as [body [Hp Hv]].
    exists (VStr (api_error_text status body)). split; [| exact Hv].
    apply attempt_api_error; assumption.
Qed.

Lemma api_errors_five_calls_witness :
  exists req,
    analyze_single_directory Worlds.broken (u "proj") (u "proj") []
    = (Ok tt,
       [] ++ [ EvPost req; EvSleep 5; EvPost req; EvSleep 10; EvPost req;
               EvSleep 15; EvPost req; EvSleep 20; EvPost req ]).
Proof.
  apply (api_errors_five_calls
           Worlds.broken (u "proj") (u "proj")
           [u "a.py"; u "logo.png"; u "b.py"; u "venv"] 500 []).
  - vm_compute. reflexivity.
  - vm_compute. reflexivity.
  - vm_compute. discriminate.
  - discriminate.
  - discriminate.
  - intros tr' req. exists Sample.body_html. split; [reflexivity |].
    vm_compute. reflexivity.
Defined.

(** X16.  The two retry budgets multiply.  When every answer is a 429
    whose max-retries text the validator rejects, one directory costs
    [MAX_RETRIES * (MAX_RETRIES + 1) = 30] requests and 425 seconds of
    sleep, and nothing is written. *)
Theorem rate_limited_directory_thirty_requests (E : Env) (directory base_dir : pystr)
        (items : list pystr) (tr : trace) :
  should_skip_directory directory = false ->
  os_listdir E directory = Ok items ->
  eligible_files E directory items <> [] ->
  (forall tr' req,
     exists body,
       http_post E tr' req = Response 429 body /\
       verify_markdown (VStr (max_retries_text body)) = Ok false) ->
  exists new,
    analyze_single_directory E directory base_dir tr = (Ok tt, tr ++ new) /\
    Z.of_nat (List.length (posts new)) = MAX_RETRIES * (MAX_RETRIES + 1) /\
    List.length (posts new) = 30%nat /\
    fold_right Z.add 0 (sleeps new) = 425 /\
    writes new = [].
Proof.
  intros Hskip Hlist Hfiles Hworld.
  set (full_content :=
         join nl (map (fun file_path =>
                         file_part (os_relpath E file_path directory)
                                   (file_text E file_path))
                      (eligible_files E directory items))).
  destruct (truncate_content_text full_content MAX_CONTENT_LENGTH) as [t Ht].
  assert (H429 : forall tr' req, exists body, http_post E tr' req = Response 429 body).
  { intros tr' req. destruct (Hworld tr' req) as [body [Hp _]]. eauto. }
  pose proof (all_rejected_run
                E directory base_dir items Hskip Hlist Hfiles
                (EvPost (request_of E (VStr t)) :: backoff (request_of E (VStr t)) 0 5))
    as Hrun.
  eexists. split.
  - apply Hrun. intros tr0.
    destruct (rate_limited_run E H429 (VStr full_content)
                               (os_relpath E directory base_dir) (VStr t) 5 Ht 0 tr0
                               eq_refl)
      as [body [history [Hcall [Hhist Hlast]]]].
    destruct (Hworld history (request_of E (VStr t))) as [body' [Hp Hv]].
    rewrite Hlast in Hp. injection Hp as <-.
    exists (VStr (max_retries_text body)). split; [| exact Hv].
    unfold full_content in Hcall. rewrite Hcall, Hhist. reflexivity.
  - generalize (request_of E (VStr t)) as req. intros req.
    repeat split; reflexivity.
Qed.

Lemma rate_limited_directory_thirty_requests_witness :
  exists new,
    analyze_single_directory Worlds.throttled (u "proj") (u "proj") []
    = (Ok tt, [] ++ new) /\
    List.length (posts new) = 30%nat.
Proof.
  destruct (rate_limited_directory_thirty_requests
              Worlds.throttled (u "proj") (u "proj")
              [u "a.py"; u "logo.png"; u "b.py"; u "venv"] [])
    as [new [Hrun [_ [Hposts _]]]].
  - vm_compute. reflexivity.
  - vm_compute. reflexivity.
  - vm_compute. discriminate.
  - intros tr' req. exists (u "rate limited"). split; [reflexivity |].
    vm_compute. reflexivity.
  - exists new. split; [exact Hrun | exact Hposts].
Defined.

(* ================================================================== *)
(** * One report per run *)
(* ================================================================== *)

Section OneReport.

Variable E : Env.

Variable directory : pystr.

Lemma once_of_quiet (m : M unit) : quiet m -> writes_once_at_end E directory m.
Proof.
  intros H tr. destruct (H tr) as [new [Hnew Hw]]. exists new. auto.
Qed.

Lemma once_bind {A} (m : M A) (k : A -> M unit) :
  quiet m -> (forall a, writes_once_at_end E directory (k a)) ->
  writes_once_at_end E directory (bind m k).
Proof.
  intros Hm Hk tr. destruct (Hm tr) as [new1 [H1 W1]]. unfold bind.
  destruct (m tr) as [[a | e] tr1]; cbn in H1; subst tr1.
  - destruct (Hk a (tr ++ new1)) as [new2 [H2 Hcases]].
    exists (new1 ++ new2). split; [rewrite H2; apply eq_sym, app_assoc |].
    destruct Hcases as [W2 | [before [text [Hnew [Wb Hfst]]]]].
    + left. rewrite writes_app, W1, W2. reflexivity.
    + right. exists (new1 ++ before), text.
      rewrite <- app_assoc in Hnew.
      split; [rewrite Hnew; apply app_assoc |].
      split; [rewrite writes_app, W1, Wb; reflexivity | exact Hfst].
  - exists new1. auto.
Qed.

Lemma once_lift_ok {A} (a : A) (k : A -> M unit) :
  writes_once_at_end E directory (k a) ->
  writes_once_at_end E directory (bind (lift (Ok a)) k).
Proof. intros H. exact H. Qed.

Lemma once_save_report (analysis : pyval) :
  verify_markdown analysis = Ok true ->
  writes_once_at_end E directory (save_report E directory analysis).
Proof.
  intros Hv tr. destruct (verify_markdown_true_text analysis Hv) as [text ->].
  unfold save_report. cbv zeta.
  destruct (open_for_write E (report_path directory (now_strftime E tr))).
  - destruct (utf8_encode_error text) as [e |] eqn:He.
    + eexists. split; [reflexivity |]. right. exists [], [].
      rewrite app_nil_r. split; [reflexivity |]. split; [reflexivity |].
      right. split; [reflexivity |]. exists e.
      split; [reflexivity | apply (utf8_encode_error_class text), He].
    + eexists. split; [reflexivity |]. right. exists [], text.
      rewrite app_nil_r. split; [reflexivity |]. split; [reflexivity |].
      left. split; [reflexivity | apply utf8_encode_error_None, He].
  - exists []. rewrite app_nil_r. auto.
Qed.

Lemma once_validation_loop rounds :
  forall full_content dir_name rc analysis,
    writes_once_at_end
      E directory (validation_loop E rounds directory full_content dir_name rc analysis).
Proof.
  induction rounds as [| rounds IH]; intros full_content dir_name rc analysis;
    cbn [validation_loop].
  - destruct (negb (rc <? MAX_RETRIES)); apply once_of_quiet, quiet_ret.
  - destruct (negb (rc <? MAX_RETRIES)); [apply once_of_quiet, quiet_ret |].
    destruct (verify_markdown analysis) as [[|] | e] eqn:Hv.
    + apply once_lift_ok. apply once_save_report, Hv.
    + apply once_lift_ok. cbv beta iota.
      destruct (rc + 1 <? MAX_RETRIES); [| apply IH].
      apply once_bind; [apply quiet_sleep |]. intros _.
      apply once_bind; [apply quiet_analyze_with_claude |]. intros analysis'.
      apply IH.
    + apply once_of_quiet. intros tr. exists []. rewrite app_nil_r.
      split; reflexivity.
Qed.

Lemma once_analyze_single_directory base_dir :
  writes_once_at_end E directory (analyze_single_directory E directory base_dir).
Proof.
  unfold analyze_single_directory.
  destruct (should_skip_directory directory); [apply once_of_quiet, quiet_ret |].
  apply once_bind; [apply quiet_lift |]. intros items.
  destruct (eligible_files E directory items); [apply once_of_quiet, quiet_ret |].
  apply once_bind; [apply quiet_lift |]. intros parts.
  apply once_bind; [apply quiet_analyze_with_claude |]. intros analysis.
  apply once_validation_loop.
Qed.

End OneReport.

(** X14.  In every world a run of [analyze_single_directory] writes at
    most one file.  When it writes, the write is the last effect of the
    run and the file is [directory_analysis_<timestamp>.md] inside the
    analyzed directory, with the timestamp taken at that moment.  Then
    either the run returns normally and the file holds text that UTF-8
    can encode, or the file is left empty and the run raises a
    [UnicodeEncodeError]. *)
Theorem at_most_one_report_written (E : Env) (directory base_dir : pystr)
        (tr : trace) :
  exists new,
    snd (analyze_single_directory E directory base_dir tr) = tr ++ new /\
    (writes new = [] \/
     exists before text,
       new = before
             ++ [EvWrite (path_join directory
                                    (u "directory_analysis_"
                                       ++ now_strftime E (tr ++ before) ++ u ".md"))
                         text] /\
       writes before = [] /\
       (fst (analyze_single_directory E directory base_dir tr) = Ok tt /\
        utf8_encodable text = true \/
        text = [] /\
        exists e,
          fst (analyze_single_directory E directory base_dir tr) = Raise e /\
          exn_class e = UnicodeEncodeError)).
Proof.
  exact (once_analyze_single_directory E directory base_dir tr).
Qed.

(* ================================================================== *)
(** * How many requests a directory can cost *)
(* ================================================================== *)

Lemma at_most_posts_weaken {A} (k k' : nat) (m : M A) :
  (k <= k')%nat -> at_most_posts k m -> at_most_posts k' m.
Proof.
  intros Hk H tr. destruct (H tr) as [new [Hnew Hn]]. exists new. split; [exact Hnew | lia].
Qed.

Lemma at_most_posts_still {A} (m : M A) :
  (forall tr, exists new, snd (m tr) = tr ++ new /\ posts new = []) ->
  at_most_posts 0 m.
Proof.
  intros H tr. destruct (H tr) as [new [Hnew Hp]]. exists new.
  rewrite Hp. split; [exact Hnew | reflexivity].
Qed.

Lemma at_most_posts_ret {A} (a : A) : at_most_posts 0 (ret a).
Proof.
  apply at_most_posts_still. intros tr. exists []. rewrite app_nil_r. auto.
Qed.

Lemma at_most_posts_lift {A} (r : outcome A) : at_most_posts 0 (lift r).
Proof.
  apply at_most_posts_still. intros tr. exists []. rewrite app_nil_r. auto.
Qed.

Lemma at_most_posts_sleep (seconds : Z) : at_most_posts 0 (sleep seconds).
Proof.
  apply at_most_posts_still. intros tr. exists [EvSleep seconds]. auto.
Qed.

Lemma at_most_posts_save_report (E : Env) (directory : pystr) (analysis : pyval) :
  at_most_posts 0 (save_report E directory analysis).
Proof.
  apply at_most_posts_still. intros tr. unfold save_report. cbv zeta.
  destruct (open_for_write E _).
  - destruct analysis; try destruct (utf8_encode_error _); eexists; split; reflexivity.
  - exists []. rewrite app_nil_r. auto.
Qed.

Lemma at_most_posts_bind {A B} (k1 k2 : nat) (m : M A) (f : A -> M B) :
  at_most_posts k1 m -> (forall a, at_most_posts k2 (f a)) ->
  at_most_posts (k1 + k2) (bind m f).
Proof.
  intros Hm Hf tr. destruct (Hm tr) as [new1 [H1 N1]]. unfold bind.
  destruct (m tr) as [[a | e] tr1]; cbn in H1; subst tr1.
  - destruct (Hf a (tr ++ new1)) as [new2 [H2 N2]].
    exists (new1 ++ new2). split; [rewrite H2; apply eq_sym, app_assoc |].
    rewrite posts_app, length_app. lia.
  - exists new1. split; [reflexivity | lia].
Qed.

Section RequestBudget.

Variable E : Env.

Hypothesis text_contents :
  forall tr req text result value,
    http_post E tr req = Response 200 text ->
    loads E text = Ok result ->
    message_content result = Ok value ->
    exists c, value = VStr c.

Lemma at_most_posts_client (s d : pystr) :
  at_most_posts 6 (analyze_with_claude E (VStr s) d 0).
Proof.
  intros tr. destruct (truncate_content_text s MAX_CONTENT_LENGTH) as [t Ht].
  destruct (scheduled_all E text_contents s d t Ht _ 0 eq_refl tr)
    as [n [answer [Hn Hrun]]].
  rewrite Hrun. eexists. split; [reflexivity |].
  cbn [posts List.length]. rewrite posts_backoff.
  change (Z.to_nat (MAX_RETRIES - 0)) with 5%nat in Hn. lia.
Qed.

Lemma at_most_posts_validation_loop rounds :
  forall directory full_content dir_name rc analysis,
    at_most_posts (6 * Z.to_nat (MAX_RETRIES - 1 - rc))
                  (validation_loop E rounds directory full_content dir_name rc analysis).
Proof.
  induction rounds as [| rounds IH]; intros directory full_content dir_name rc analysis;
    cbn [validation_loop].
  - destruct (negb (rc <? MAX_RETRIES));
      apply (at_most_posts_weaken 0); try lia; apply at_most_posts_ret.
  - destruct (Z.ltb_spec rc MAX_RETRIES) as [Hlt | Hge]; cbn [negb];
      [| apply (at_most_posts_weaken 0); [lia | apply at_most_posts_ret]].
    destruct (verify_markdown analysis) as [[|] | e] eqn:Hv.
    + intros tr. unfold bind, lift.
      apply (at_most_posts_weaken 0); [lia | apply at_most_posts_save_report].
    + intros tr. unfold bind at 1, lift.
      destruct (Z.ltb_spec (rc + 1) MAX_RETRIES) as [Hlt' | Hge'].
      * revert tr.
        apply (at_most_posts_weaken
                 (0 + (6 + 6 * Z.to_nat (MAX_RETRIES - 1 - (rc + 1))))); [lia |].
        apply at_most_posts_bind; [apply at_most_posts_sleep |]. intros _.
        apply at_most_posts_bind; [apply at_most_posts_client |]. intros analysis'.
        apply IH.
      * revert tr.
        apply (at_most_posts_weaken (6 * Z.to_nat (MAX_RETRIES - 1 - (rc + 1))));
          [lia | apply IH].
    + apply (at_most_posts_weaken 0); [lia |].
      apply at_most_posts_still. intros tr. exists []. rewrite app_nil_r. auto.
Qed.

Lemma at_most_posts_directory (directory base_dir : pystr) :
  at_most_posts 30 (analyze_single_directory E directory base_dir).
Proof.
  unfold analyze_single_directory.
  destruct (should_skip_directory directory);
    [apply (at_most_posts_weaken 0); [lia | apply at_most_posts_ret] |].
  apply (at_most_posts_weaken (0 + 30)); [lia |].
  apply at_most_posts_bind; [apply at_most_posts_lift |]. intros items.
  destruct (eligible_files E directory items);
    [apply (at_most_posts_weaken 0); [lia | apply at_most_posts_ret] |].
  apply (at_most_posts_weaken (0 + (6 + 24))); [lia |].
  apply at_most_posts_bind; [apply at_most_posts_lift |]. intros parts.
  apply at_most_posts_bind; [apply at_most_posts_client |]. intros analysis.
  apply (at_most_posts_weaken (6 * Z.to_nat (MAX_RETRIES - 1 - 0))); [cbn; lia |].
  apply at_most_posts_validation_loop.
Qed.

End RequestBudget.

(** X19.  Where every decoded message content is text, one directory
    never costs more than [MAX_RETRIES * (MAX_RETRIES + 1) = 30] requests,
    whatever mixture of failures and rejected reports occurs. *)
Theorem directory_request_budget (E : Env) (directory base_dir : pystr) (tr : trace) :
  (forall tr' req text result value,
     http_post E tr' req = Response 200 text ->
     loads E text = Ok result ->
     message_content result = Ok value ->
     exists c, value = VStr c) ->
  exists new,
    snd (analyze_single_directory E directory base_dir tr) = tr ++ new /\
    Z.of_nat (List.length (posts new)) <= MAX_RETRIES * (MAX_RETRIES + 1).
Proof.
  intros Htext.
  destruct (at_most_posts_directory E Htext directory base_dir tr) as [new [Hnew Hn]].
  exists new. split; [exact Hnew |].
  change (MAX_RETRIES * (MAX_RETRIES + 1)) with 30. lia.
Qed.

Lemma directory_request_budget_witness :
  exists new,
    snd (analyze_single_directory Sample.world_html_then_report (u "proj") (u "proj") [])
    = [] ++ new /\
    Z.of_nat (List.length (posts new)) <= MAX_RETRIES * (MAX_RETRIES + 1).
Proof.
  apply directory_request_budget. exact html_then_report_text_contents.
Defined.

(* ================================================================== *)
(** * The task list and the path of the root *)
(* ================================================================== *)




